(** * Admission control of the endpoint server: rate limiter and IP bans

    A shallow embedding of [src/middleware/rateLimiter.js].  The module keeps
    two process-wide tables, [banned] (a plain object used as a map from
    client address to ban record) and [ipTimestamps] (a [Map] from client
    address to the arrival instants of its recent requests), writes the first
    to [data/banned-ips.json] and an audit trail to [logs/request-logs.log].

    Conventions of the embedding.
    - Instants are milliseconds since the epoch, in [Z].  Where the source
      stores [new Date().toISOString()] the model stores the instant that
      string renders.
    - A function that reads the clock takes its readings as leading
      arguments, one per read, so that no relation between two reads of one
      call is assumed.
    - [banned] is a plain object.  Its own properties are the [gmap] of
      the field [banned]; what it inherits is modelled too: the properties
      of [Object.prototype], and those of a record that an assignment to
      ["__proto__"] has put in the place of the prototype ([banned_proto]).
      The entries of the object are ban records, as every entry the module
      writes is.
    - The file system is part of the state; every call may be refused by the
      operating system ([io_ok]), in which case the call throws, as in Node;
      a refused write may have cut the file short before it failed
      ([io_damage]).
    - A ban file whose text is JSON but not an object of ban records makes
      [loadBanned] bind [banned] to a value that is not such an object.  The
      embedding stops there: the run ends in [Beyond], which no handler
      catches. *)

From stdpp Require Import gmap strings list fin_maps pretty.

Local Open Scope Z_scope.

(** ** Constants *)

Definition WINDOW_MS : Z := 10 * 1000.
Definition MAX_REQUESTS : Z := 25.
Definition CLEANUP_INTERVAL_MS : Z := 60 * 1000.

(** ** Data *)

(** The value stored under an address in [banned]:
    [{ bannedAt, reason, by }]. *)
Record ban_record := BanRecord {
  bannedAt : Z;
  reason : string;
  banned_by : string;
}.

Global Instance ban_record_eq_dec : EqDecision ban_record.
Proof. solve_decision. Defined.

(** One line of [request-logs.log], by the tag that opens it. *)
Inductive log_line :=
  | LogBan (now : Z) (ip reason : string)
  | LogUnban (now : Z) (ip : string)
  | LogBlockedReq (now : Z) (ip path method : string)
  | LogReq (now : Z) (ip method path : string) (count : nat).

(** The text of [banned-ips.json]: empty, the rendering of a ban map by
    [JSON.stringify], other text that [JSON.parse] accepts ([null], an
    array, a number, a string, a boolean, an object whose entries are not
    ban records), or text that [JSON.parse] rejects. *)
Inductive ban_text :=
  | TextEmpty
  | TextJson (m : gmap string ban_record)
  | TextJsonOther
  | TextCorrupt.

Inductive path := DATA_DIR | LOG_DIR | BANNED_FILE | REQUEST_LOG.

(** Exceptions.  [Beyond] is none of the program's: it ends a run at the
    point where the state leaves what this embedding describes. *)
Inductive exn :=
  | ENOENT
  | EEXIST
  | EIO
  | SyntaxError
  | TypeError
  | Beyond.

(** Calls into [fs] that reach the operating system. *)
Inductive syscall :=
  | SysMkdir (p : path)
  | SysReadBanned
  | SysWriteBanned (t : ban_text)
  | SysWriteLog
  | SysAppendLog (l : log_line).

(** What a write that fails leaves of the file: the open failed and the
    file is as it was; or the open (flag [w]) had emptied the file before
    the failure; or part of the text had been written. *)
Inductive damage := Untouched | Emptied | Cut.

Record disk := Disk {
  data_dir : bool;
  log_dir : bool;
  banned_file : option ban_text;
  request_log : option (list log_line);
}.

(** What [banned[ip]] reads: a ban record; a function of
    [Object.prototype] or that object itself; the [bannedAt] string or
    another string of a record that serves as prototype; or nothing. *)
Inductive js_read :=
  | ReadRecord (r : ban_record)
  | ReadBuiltin
  | ReadInstant (t : Z)
  | ReadString (s : string)
  | ReadUndefined.

(** Bodies of the JSON responses, by their [error]/[message] text.  The 403
    body comes with [bannedAt] and [reason] when what was found under the
    address has them, and without ([BlockedBareBody]) when they are
    undefined. *)
Inductive payload :=
  | BlockedBody (bannedAt : Z) (reason : string)
  | BlockedBareBody
  | ExceededBody (maxReq windowMs : Z)
  | AdminKeyMissingBody
  | UnauthorizedBody
  | ProvideIpBody
  | UnbannedBody (ip : string)
  | NotFoundBody (ip : string).

(** What a handler does with [res] and [next]. *)
Inductive reply :=
  | Next
  | Send (status : Z) (body : payload).

Record req_body := ReqBody {
  body_adminKey : option string;
  body_ip : option string;
}.

Record request := Request {
  req_ip : option string;
  hdr_x_forwarded_for : option string;
  conn_remoteAddress : option string;
  req_path : string;
  req_method : string;
  hdr_x_admin_key : option string;
  body : option req_body;
  query_adminKey : option string;
}.

Record options := Options {
  maxRequests : option Z;
  windowMs : option Z;
}.

(** The three clock reads of one pass through the middleware:
    [Date.now()], the [new Date()] of the log line, the [new Date()] of
    [banIp]. *)
Record clock_reads := ClockReads {
  date_now : Z;
  date_log : Z;
  date_ban : Z;
}.

(** ** State *)

Record world := World {
  banned : gmap string ban_record;
  ipTimestamps : gmap string (list Z);
  fs : disk;
  io_ok : syscall -> bool;
  syscalls : list syscall;
  console : list (string * exn);
  ADMIN_KEY : option string;
  outbox : list reply;
  banned_proto : option ban_record;
  io_damage : syscall -> damage;
}.

Definition set_banned (b : gmap string ban_record) (w : world) : world :=
  World b (ipTimestamps w) (fs w) (io_ok w) (syscalls w) (console w)
        (ADMIN_KEY w) (outbox w) (banned_proto w) (io_damage w).

Definition set_ipTimestamps (m : gmap string (list Z)) (w : world) : world :=
  World (banned w) m (fs w) (io_ok w) (syscalls w) (console w)
        (ADMIN_KEY w) (outbox w) (banned_proto w) (io_damage w).

Definition set_fs (d : disk) (w : world) : world :=
  World (banned w) (ipTimestamps w) d (io_ok w) (syscalls w) (console w)
        (ADMIN_KEY w) (outbox w) (banned_proto w) (io_damage w).

Definition set_syscalls (l : list syscall) (w : world) : world :=
  World (banned w) (ipTimestamps w) (fs w) (io_ok w) l (console w)
        (ADMIN_KEY w) (outbox w) (banned_proto w) (io_damage w).

Definition set_console (c : list (string * exn)) (w : world) : world :=
  World (banned w) (ipTimestamps w) (fs w) (io_ok w) (syscalls w) c
        (ADMIN_KEY w) (outbox w) (banned_proto w) (io_damage w).

Definition set_outbox (o : list reply) (w : world) : world :=
  World (banned w) (ipTimestamps w) (fs w) (io_ok w) (syscalls w) (console w)
        (ADMIN_KEY w) o (banned_proto w) (io_damage w).

Definition set_banned_proto (p : option ban_record) (w : world) : world :=
  World (banned w) (ipTimestamps w) (fs w) (io_ok w) (syscalls w) (console w)
        (ADMIN_KEY w) (outbox w) p (io_damage w).

(** ** Computations that may throw *)

Definition M (A : Type) : Type := world -> (exn + A) * world.

Definition ret {A} (a : A) : M A := fun w => (inr a, w).

Definition throw {A} (e : exn) : M A := fun w => (inl e, w).

Definition bind {A B} (m : M A) (k : A -> M B) : M B :=
  fun w =>
    match m w with
    | (inl e, w') => (inl e, w')
    | (inr a, w') => k a w'
    end.

Definition try_catch {A} (body : M A) (handler : exn -> M A) : M A :=
  fun w =>
    match body w with
    | (inl Beyond, w') => (inl Beyond, w')
    | (inl e, w') => handler e w'
    | (inr a, w') => (inr a, w')
    end.

Definition gets {A} (f : world -> A) : M A := fun w => (inr (f w), w).

Definition modify (f : world -> world) : M unit := fun w => (inr tt, f w).

Declare Scope js_scope.
Delimit Scope js_scope with js.
Notation "x <- c1 ;; c2" := (bind c1 (fun x => c2))
  (at level 100, c1 at next level, c2 at level 200, right associativity) : js_scope.
Notation "c1 ;;; c2" := (bind c1 (fun _ => c2))
  (at level 100, c2 at level 200, right associativity) : js_scope.
Local Open Scope js_scope.

Definition when (b : bool) (m : M unit) : M unit := if b then m else ret tt.

(** ** The [fs] module and the console *)

Definition fs_existsSync (p : path) : M bool :=
  gets (fun w =>
    match p with
    | DATA_DIR => data_dir (fs w)
    | LOG_DIR => log_dir (fs w)
    | BANNED_FILE => bool_decide (is_Some (banned_file (fs w)))
    | REQUEST_LOG => bool_decide (is_Some (request_log (fs w)))
    end).

(** Every call is recorded, then answered by the operating system. *)
Definition sys (c : syscall) : M unit :=
  modify (fun w => set_syscalls (syscalls w ++ [c]) w) ;;;
  ok <- gets (fun w => io_ok w c) ;;
  if ok : bool then ret tt else throw EIO.

Definition fs_mkdirSync (p : path) : M unit :=
  sys (SysMkdir p) ;;;
  d <- gets fs ;;
  match p with
  | DATA_DIR =>
      if data_dir d then throw EEXIST
      else modify (set_fs (Disk true (log_dir d) (banned_file d) (request_log d)))
  | LOG_DIR =>
      if log_dir d then throw EEXIST
      else modify (set_fs (Disk (data_dir d) true (banned_file d) (request_log d)))
  | _ => throw EEXIST
  end.

Definition fs_readFileSync_banned : M ban_text :=
  sys SysReadBanned ;;;
  d <- gets fs ;;
  match banned_file d with
  | Some t => ret t
  | None => throw ENOENT
  end.

(** What is left of a ban file that held [old] when a write to it fails. *)
Definition damaged (dmg : damage) (old : option ban_text) : option ban_text :=
  match dmg with
  | Untouched => old
  | Emptied => Some TextEmpty
  | Cut => Some TextCorrupt
  end.

(** [writeFileSync] opens with flag [w], which creates or empties the file,
    then writes.  A call the operating system refuses throws, and inside an
    existing directory it may have damaged the file on the way.  Without
    the directory the open fails. *)
Definition fs_writeFileSync_banned (t : ban_text) : M unit :=
  modify (fun w => set_syscalls (syscalls w ++ [SysWriteBanned t]) w) ;;;
  ok <- gets (fun w => io_ok w (SysWriteBanned t)) ;;
  d <- gets fs ;;
  if ok : bool then
    if data_dir d
    then modify (set_fs (Disk (data_dir d) (log_dir d) (Some t) (request_log d)))
    else throw ENOENT
  else
    dmg <- gets (fun w => io_damage w (SysWriteBanned t)) ;;
    when (data_dir d)
      (modify (set_fs (Disk (data_dir d) (log_dir d)
                            (damaged dmg (banned_file d)) (request_log d)))) ;;;
    throw EIO.

(** The write of the empty text to the log: a failure after the open
    leaves the file created and empty. *)
Definition fs_writeFileSync_log_empty : M unit :=
  modify (fun w => set_syscalls (syscalls w ++ [SysWriteLog]) w) ;;;
  ok <- gets (fun w => io_ok w SysWriteLog) ;;
  d <- gets fs ;;
  if ok : bool then
    if log_dir d
    then modify (set_fs (Disk (data_dir d) (log_dir d) (banned_file d) (Some [])))
    else throw ENOENT
  else
    dmg <- gets (fun w => io_damage w SysWriteLog) ;;
    when (log_dir d)
      (modify (set_fs (Disk (data_dir d) (log_dir d) (banned_file d)
                            (match dmg with
                             | Untouched => request_log d
                             | _ => Some []
                             end)))) ;;;
    throw EIO.

Definition fs_appendFileSync_log (l : log_line) : M unit :=
  sys (SysAppendLog l) ;;;
  d <- gets fs ;;
  if log_dir d
  then modify (set_fs (Disk (data_dir d) (log_dir d) (banned_file d)
                            (Some (default [] (request_log d) ++ [l]))))
  else throw ENOENT.

Definition console_error (msg : string) (err : exn) : M unit :=
  modify (fun w => set_console (console w ++ [(msg, err)]) w).

Definition JSON_stringify (b : gmap string ban_record) : ban_text := TextJson b.

Definition JSON_parse (raw : ban_text) : M (gmap string ban_record) :=
  match raw with
  | TextJson m => ret m
  | TextJsonOther => throw Beyond
  | TextEmpty | TextCorrupt => throw SyntaxError
  end.

Definition text_truthy (raw : ban_text) : bool :=
  match raw with
  | TextEmpty => false
  | _ => true
  end.

(** ** Truthiness of strings that may be undefined *)

Definition truthy (s : option string) : bool :=
  match s with
  | Some s => negb (String.eqb s "")
  | None => false
  end.

(** [a || b] *)
Definition js_or (a b : option string) : option string :=
  if truthy a then a else b.

(** [a || "literal"] *)
Definition js_or_str (a : option string) (b : string) : string :=
  match a with
  | Some s => if String.eqb s "" then b else s
  | None => b
  end.

(** [n || d] on numbers: zero and undefined give the default. *)
Definition js_or_num (n : option Z) (d : Z) : Z :=
  match n with
  | Some v => if decide (v = 0) then d else v
  | None => d
  end.

(** ** The object [banned] *)

(** The names every plain object inherits from [Object.prototype]. *)
Definition Object_prototype_keys : list string :=
  ["constructor"; "__defineGetter__"; "__defineSetter__"; "hasOwnProperty";
   "__lookupGetter__"; "__lookupSetter__"; "isPrototypeOf";
   "propertyIsEnumerable"; "toString"; "valueOf"; "__proto__";
   "toLocaleString"]%string.

(** What a key that is not an own property reads.  ["__proto__"] reads the
    prototype itself.  With a record as prototype, the names of its three
    fields read their strings, and every other name goes on to
    [Object.prototype], which the record inherits from. *)
Definition inherited_value (proto : option ban_record) (k : string) : js_read :=
  if decide (k = "__proto__"%string) then
    match proto with
    | Some r => ReadRecord r
    | None => ReadBuiltin
    end
  else
    match proto with
    | Some r =>
        if decide (k = "bannedAt"%string) then ReadInstant (bannedAt r)
        else if decide (k = "reason"%string) then ReadString (reason r)
        else if decide (k = "by"%string) then ReadString (banned_by r)
        else if bool_decide (k ∈ Object_prototype_keys) then ReadBuiltin
        else ReadUndefined
    | None =>
        if bool_decide (k ∈ Object_prototype_keys) then ReadBuiltin
        else ReadUndefined
    end.

(** [banned[k]]: the own property when there is one, else what is
    inherited. *)
Definition banned_read (w : world) (k : string) : js_read :=
  match banned w !! k with
  | Some r => ReadRecord r
  | None => inherited_value (banned_proto w) k
  end.

(** The truth value of what was read; a [bannedAt] string, the rendering of
    an instant, is never empty. *)
Definition js_truthy (v : js_read) : bool :=
  match v with
  | ReadString s => negb (String.eqb s "")
  | ReadUndefined => false
  | ReadRecord _ | ReadBuiltin | ReadInstant _ => true
  end.

(** [banned[k] = r]: an own property is written, or created; but
    ["__proto__"], unless it is an own property already, goes to the setter
    inherited from [Object.prototype], which makes [r] the prototype. *)
Definition banned_assign (k : string) (r : ban_record) (w : world) : world :=
  let to_setter := bool_decide (k = "__proto__"%string /\ banned w !! k = None) in
  World (if to_setter then banned w else <[k := r]> (banned w))
        (ipTimestamps w) (fs w) (io_ok w) (syscalls w) (console w)
        (ADMIN_KEY w) (outbox w)
        (if to_setter then Some r else banned_proto w) (io_damage w).

Arguments banned_assign : simpl never.

(** [banned = m], for the fresh object [m] that [JSON.parse] or the literal
    [{}] gives: its prototype is [Object.prototype]. *)
Definition banned_rebind (m : gmap string ban_record) (w : world) : world :=
  set_banned_proto None (set_banned m w).

(** ** Responses *)

(** The 403 body built from [info = banned[ip]]: [info.bannedAt] and
    [info.reason] are those of a record, and undefined (left out by
    [res.json]) on a function, on [Object.prototype] and on a string. *)
Definition blocked_body (info : js_read) : payload :=
  match info with
  | ReadRecord r => BlockedBody (bannedAt r) (reason r)
  | _ => BlockedBareBody
  end.

Definition res_send (status : Z) (b : payload) : M unit :=
  modify (fun w => set_outbox (outbox w ++ [Send status b]) w).

Definition next : M unit :=
  modify (fun w => set_outbox (outbox w ++ [Next]) w).

(** ** rateLimiter.js *)

Definition ensureFiles : M unit :=
  (e <- fs_existsSync DATA_DIR ;; when (negb e) (fs_mkdirSync DATA_DIR)) ;;;
  (e <- fs_existsSync LOG_DIR ;; when (negb e) (fs_mkdirSync LOG_DIR)) ;;;
  (e <- fs_existsSync BANNED_FILE ;;
   when (negb e) (fs_writeFileSync_banned (JSON_stringify ∅))) ;;;
  (e <- fs_existsSync REQUEST_LOG ;; when (negb e) fs_writeFileSync_log_empty).

Definition loadBanned : M unit :=
  try_catch
    (raw <- fs_readFileSync_banned ;;
     m <- (if text_truthy raw then JSON_parse raw else ret ∅) ;;
     modify (banned_rebind m))
    (fun err =>
       console_error "Failed to load banned ips file:" err ;;;
       modify (banned_rebind ∅)).

Definition saveBanned : M unit :=
  try_catch
    (b <- gets banned ;; fs_writeFileSync_banned (JSON_stringify b))
    (fun err => console_error "Failed to save banned ips file:" err).

Definition appendLog (line : log_line) : M unit :=
  try_catch
    (fs_appendFileSync_log line)
    (fun err => console_error "Failed to append request log:" err).

(** [now] is the instant of [new Date()]; an undefined [reason] takes the
    default of the parameter list. *)
Definition banIp (now : Z) (ip : string) (reason : option string) : M unit :=
  let reason := default "rate_limit_exceeded" reason in
  modify (banned_assign ip (BanRecord now reason "rateLimiter")) ;;;
  saveBanned ;;;
  appendLog (LogBan now ip reason).

(** [delete banned[ip]] removes an own property and nothing else. *)
Definition unbanIp (now : Z) (ip : string) : M bool :=
  found <- gets (fun w => banned_read w ip) ;;
  if js_truthy found then
    modify (fun w => set_banned (delete ip (banned w)) w) ;;;
    saveBanned ;;;
    appendLog (LogUnban now ip) ;;;
    ret true
  else ret false.

(** [arr.filter((t) => now - t <= W)] *)
Definition recent_of (W now : Z) (arr : list Z) : list Z :=
  filter (fun t => now - t ≤ W) arr.

(** One round of the loop of [cleanup] on the entry [arr]: [None] deletes
    the key, [Some filtered] sets it. *)
Definition cleanup_entry (now : Z) (arr : list Z) : option (list Z) :=
  let filtered := recent_of WINDOW_MS now arr in
  if decide (length filtered = 0%nat) then None else Some filtered.

Definition cleanup (now : Z) : M unit :=
  modify (fun w => set_ipTimestamps (omap (cleanup_entry now) (ipTimestamps w)) w).

Definition client_ip (req : request) : string :=
  js_or_str
    (js_or (js_or (req_ip req) (hdr_x_forwarded_for req)) (conn_remoteAddress req))
    "unknown".

Definition exceeded_reason (maxReq windowMs : Z) : string :=
  "exceeded_" +:+ pretty maxReq +:+ "_per_" +:+ pretty windowMs +:+ "ms".

Definition rateLimiterMiddleware (opts : options) : request -> clock_reads -> M unit :=
  let maxReq := js_or_num (maxRequests opts) MAX_REQUESTS in
  let windowMs := js_or_num (windowMs opts) WINDOW_MS in
  fun req clk =>
    let ip := client_ip req in
    info <- gets (fun w => banned_read w ip) ;;
    if js_truthy info then
      res_send 403 (blocked_body info) ;;;
      appendLog (LogBlockedReq (date_log clk) ip (req_path req) (req_method req))
    else
        let now := date_now clk in
        ts <- gets ipTimestamps ;;
        let arr := default [] (ts !! ip) ++ [now] in
        let recent := recent_of windowMs now arr in
        modify (fun w => set_ipTimestamps (<[ip := recent]> (ipTimestamps w)) w) ;;;
        appendLog (LogReq (date_log clk) ip (req_method req) (req_path req) (length recent)) ;;;
        if decide (maxReq < Z.of_nat (length recent)) then
          banIp (date_ban clk) ip (Some (exceeded_reason maxReq windowMs)) ;;;
          res_send 429 (ExceededBody maxReq windowMs)
        else
          next.

(** The exported [middleware]: the factory applied to no options. *)
Definition middleware : request -> clock_reads -> M unit :=
  rateLimiterMiddleware (Options None None).

(** [now] is the instant [unbanIp] reads when it finds the record. *)
Definition adminUnbanHandler (req : request) (now : Z) : M unit :=
  k <- gets ADMIN_KEY ;;
  let adminKey := js_or k None in
  let provided :=
    js_or (js_or (hdr_x_admin_key req) (b ← body req; body_adminKey b))
          (query_adminKey req) in
  if negb (truthy adminKey) then
    res_send 500 AdminKeyMissingBody
  else if negb (truthy provided) || negb (bool_decide (provided = adminKey)) then
    res_send 401 UnauthorizedBody
  else
    match body req with
    | None => throw TypeError
    | Some b =>
        if negb (truthy (body_ip b)) then res_send 400 ProvideIpBody
        else
          let ip := default "" (body_ip b) in
          ok <- unbanIp now ip ;;
          if ok : bool then res_send 200 (UnbannedBody ip)
          else res_send 404 (NotFoundBody ip)
    end.

Definition getBannedList : M (gmap string ban_record) := gets banned.

Definition getStats : M (nat * nat) :=
  gets (fun w => (size (ipTimestamps w), size (banned w))).

(** The top level of the module, run once when it is imported. *)
Definition module_init : M unit := ensureFiles ;;; loadBanned.

(** The process before the module is imported: both tables empty; the
    operating system answers by [ok], and a write it refuses leaves the
    file as it was. *)
Definition boot (d : disk) (ok : syscall -> bool) (key : option string) : world :=
  World ∅ ∅ d ok [] [] key [] None (fun _ => Untouched).

(** ** Serving a sequence of requests *)

Fixpoint serve (mw : request -> clock_reads -> M unit)
    (rs : list (request * clock_reads)) : M unit :=
  match rs with
  | [] => ret tt
  | (req, clk) :: rest => mw req clk ;;; serve mw rest
  end.

(** ** Scenarios used below *)

Definition all_ok : syscall -> bool := fun _ => true.
Definition none_ok : syscall -> bool := fun _ => false.

Definition ready_disk : disk := Disk true true (Some (TextJson ∅)) (Some []).

Definition w0 : world := boot ready_disk all_ok (Some "s3cret").

Definition from (ip : string) : request :=
  Request (Some ip) None None "/" "GET" None None None.

Definition at_ (t : Z) : clock_reads := ClockReads t t t.

Definition opts_3_1000 : options := Options (Some 3) (Some 1000).

(** * Vocabulary of the statements *)

(** [returns m w Q]: run from [w], [m] ends without throwing, and its value
    and final state satisfy [Q]. *)
Definition returns {A} (m : M A) (w : world) (Q : A -> world -> Prop) : Prop :=
  exists a w', m w = (inr a, w') /\ Q a w'.

(** [throws m w Q]: run from [w], [m] ends by throwing. *)
Definition throws {A} (m : M A) (w : world) (Q : exn -> world -> Prop) : Prop :=
  exists e w', m w = (inl e, w') /\ Q e w'.

(** The part of the state that lives in the process and that the file
    system calls leave alone. *)
Definition same_memory (w w' : world) : Prop :=
  banned w' = banned w /\ ipTimestamps w' = ipTimestamps w /\
  outbox w' = outbox w /\ io_ok w' = io_ok w /\ ADMIN_KEY w' = ADMIN_KEY w /\
  banned_proto w' = banned_proto w /\ io_damage w' = io_damage w.

(** [if (banned[ip])]: what the tests of the middleware and of [unbanIp]
    find under an address. *)
Definition listed (w : world) (ip : string) : bool := js_truthy (banned_read w ip).

(** The address names nothing that [banned] inherits, or nothing truthy. *)
Definition plain_key (w : world) (ip : string) : bool :=
  negb (js_truthy (inherited_value (banned_proto w) ip)).

(** A write of [t] to [banned-ips.json] goes through in [w]. *)
Definition write_lands (t : ban_text) (w : world) : bool :=
  io_ok w (SysWriteBanned t) && data_dir (fs w).

(** An append of [l] to [request-logs.log] goes through in [w]. *)
Definition append_lands (l : log_line) (w : world) : bool :=
  io_ok w (SysAppendLog l) && log_dir (fs w).

(** What a write of [t] leaves in [banned-ips.json]: [t] when it goes
    through, the old file when the directory is missing, and what the
    failure left of the old file when the operating system refuses. *)
Definition write_leaves (t : ban_text) (w : world) : option ban_text :=
  if write_lands t w then Some t
  else if io_ok w (SysWriteBanned t) || negb (data_dir (fs w)) then banned_file (fs w)
  else damaged (io_damage w (SysWriteBanned t)) (banned_file (fs w)).

(** What the refused call throws: [EIO] when the operating system says no,
    [ENOENT] when the directory is not there. *)
Definition write_error (t : ban_text) (w : world) : exn :=
  if io_ok w (SysWriteBanned t) then ENOENT else EIO.

Definition append_error (l : log_line) (w : world) : exn :=
  if io_ok w (SysAppendLog l) then ENOENT else EIO.

Definition save_failed (t : ban_text) (w : world) : list (string * exn) :=
  if write_lands t w then []
  else [("Failed to save banned ips file:"%string, write_error t w)].

Definition append_failed (l : log_line) (w : world) : list (string * exn) :=
  if append_lands l w then []
  else [("Failed to append request log:"%string, append_error l w)].

(** The limits a middleware built from [opts] works with. *)
Definition max_of (opts : options) : Z := js_or_num (maxRequests opts) MAX_REQUESTS.
Definition window_of (opts : options) : Z := js_or_num (windowMs opts) WINDOW_MS.

(** The array the middleware stores for a client whose entry was [stored],
    on a request at [now]; its length is the [count=] of the log line. *)
Definition recorded (W now : Z) (stored : option (list Z)) : list Z :=
  recent_of W now (default [] stored ++ [now]).

(** Every instant of [ts] lies in the trailing window of every later one
    (and of itself): for positions [j <= i], [ts_i - ts_j <= W]. *)
Definition within_window (W : Z) (ts : list Z) : Prop :=
  forall (i j : nat) ti tj,
    ts !! i = Some ti -> ts !! j = Some tj -> (j <= i)%nat -> ti - tj ≤ W.

Definition instants (rs : list (request * clock_reads)) : list Z :=
  map (fun rc => date_now rc.2) rs.

Definition three_from_A : list (request * clock_reads) :=
  [(from "A", at_ 0); (from "A", at_ 100); (from "A", at_ 200)].

Definition four_from_A : list (request * clock_reads) :=
  three_from_A ++ [(from "A", at_ 300)].

(** The state once "A" has been banned by its fourth request. *)
Definition w_banned : world :=
  (serve (rateLimiterMiddleware opts_3_1000) four_from_A w0).2.

(** The state once "A" has sent three requests, all admitted. *)
Definition w_three : world :=
  (serve (rateLimiterMiddleware opts_3_1000) three_from_A w0).2.

Definition ban_unban_retry : M bool :=
  serve (rateLimiterMiddleware opts_3_1000) four_from_A ;;;
  ok <- unbanIp 350 "A" ;;
  rateLimiterMiddleware opts_3_1000 (from "A") (at_ 400) ;;;
  ret ok.

(** The server between two requests of a client: requests of any client
    through a middleware of any limits, and rounds of the periodic
    [cleanup]. *)
Inductive event :=
  | Incoming (opts : options) (req : request) (clk : clock_reads)
  | Reaper (now : Z).

Definition handle (e : event) : M unit :=
  match e with
  | Incoming opts req clk => rateLimiterMiddleware opts req clk
  | Reaper now => cleanup now
  end.

Fixpoint run (es : list event) : M unit :=
  match es with
  | [] => ret tt
  | e :: rest => handle e ;;; run rest
  end.

(** [req.headers["x-admin-key"] || req.body?.adminKey || req.query?.adminKey] *)
Definition provided_key (req : request) : option string :=
  js_or (js_or (hdr_x_admin_key req) (b ← body req; body_adminKey b))
        (query_adminKey req).

Definition unban_request (key : option string) (ip : string) : request :=
  Request (Some "10.0.0.1"%string) None None "/admin/unban" "POST" key
          (Some (ReqBody None (Some ip))) None.

Definition w_no_key : world := boot ready_disk all_ok None.

(** What [readFileSync(BANNED_FILE)] gives in [w]. *)
Definition read_outcome (w : world) : exn + ban_text :=
  if io_ok w SysReadBanned then
    match banned_file (fs w) with
    | Some t => inr t
    | None => inl ENOENT
    end
  else inl EIO.

Definition load_failed (err : exn) : list (string * exn) :=
  [("Failed to load banned ips file:"%string, err)].


(** A tracker with one entry: "C" asked once, at instant 0. *)
Definition w_one : world :=
  set_ipTimestamps {["C"%string := [0]]} (boot ready_disk all_ok None).

(** [req.ip], the [x-forwarded-for] header and [remoteAddress] are all
    undefined or empty. *)
Definition anonymous (req : request) : bool :=
  negb (truthy (req_ip req)) && negb (truthy (hdr_x_forwarded_for req))
  && negb (truthy (conn_remoteAddress req)).

Definition nobody : request :=
  Request None None None "/a" "GET" None None None.

Definition nobody_else : request :=
  Request (Some ""%string) (Some ""%string) None "/b" "POST" None None None.

(** ** The module seen from outside *)

(** What the rest of the server can do to the module: let a request or a
    round of the reaper through, call the exported [banIp] and [unbanIp],
    or route a request to [adminUnbanHandler]. *)
Inductive action :=
  | Serve (e : event)
  | CallBan (now : Z) (ip : string) (why : option string)
  | CallUnban (now : Z) (ip : string)
  | AdminUnban (req : request) (now : Z).

Definition perform (a : action) : M unit :=
  match a with
  | Serve e => handle e
  | CallBan now ip why => banIp now ip why
  | CallUnban now ip => unbanIp now ip ;;; ret tt
  | AdminUnban req now => adminUnbanHandler req now
  end.

(** The state after a sequence of actions.  An exception thrown by one of
    them ends that action only; the next starts from the state it left. *)
Fixpoint after_all (acts : list action) (w : world) : world :=
  match acts with
  | [] => w
  | a :: rest => after_all rest (perform a w).2
  end.

(** The log of [w'] is the log of [w] with lines added at its end. *)
Definition log_grows (w w' : world) : Prop :=
  forall l, request_log (fs w) = Some l ->
            exists l', request_log (fs w') = Some (l ++ l').

(** [banned-ips.json] holds the rendering of the map in memory. *)
Definition in_sync (w : world) : Prop :=
  banned_file (fs w) = Some (TextJson (banned w)).

(** The [data] directory is there and no call is refused. *)
Definition disk_obeys (w : world) : Prop :=
  data_dir (fs w) = true /\ forall c, io_ok w c = true.

(** A tracker with three clients: one all stale, one partly, one fresh. *)
Definition w_mixed : world :=
  set_ipTimestamps {["old"%string := [0; 5]; "mid"%string := [100; 19000];
                     "new"%string := [19500]]}
                   (boot ready_disk all_ok None).

(** ** More scenarios *)

(** The disk of [w0], with every write to the ban file refused. *)
Definition w_ban_refused : world :=
  boot ready_disk
       (fun c => match c with SysWriteBanned _ => false | _ => true end) None.

Definition key_only_request : request :=
  Request (Some "10.0.0.1"%string) None None "/admin/unban" "POST"
          (Some "s3cret"%string) None None.

Definition no_address_request : request :=
  Request (Some "10.0.0.1"%string) None None "/admin/unban" "POST"
          (Some "s3cret"%string) (Some (ReqBody None (Some ""%string))) None.

Definition two_keys_request : request :=
  Request (Some "10.0.0.1"%string) None None "/admin/unban" "POST"
          (Some "guess"%string)
          (Some (ReqBody (Some "s3cret"%string) (Some "A"%string)))
          (Some "s3cret"%string).

(** Every instant of [ts], taken in order, finds at most [max] instants in
    its trailing window of [W], itself included, among those of [seen] and
    the ones before it in [ts]. *)
Fixpoint within_limit (W max : Z) (seen ts : list Z) : Prop :=
  match ts with
  | [] => True
  | t :: rest =>
      Z.of_nat (length (recent_of W t (seen ++ [t]))) ≤ max /\
      within_limit W max (seen ++ [t]) rest
  end.

(** No instant of [ts] is earlier than one before it. *)
Fixpoint non_decreasing (ts : list Z) : Prop :=
  match ts with
  | [] => True
  | t :: rest => Forall (Z.le t) rest /\ non_decreasing rest
  end.

(** Six requests of "A", never more than three in any second. *)
Definition six_paced_from_A : list (request * clock_reads) :=
  [(from "A", at_ 0); (from "A", at_ 400); (from "A", at_ 800);
   (from "A", at_ 1100); (from "A", at_ 1500); (from "A", at_ 1900)].

(** ** The meme generator: [wrapText] *)

(** The character [" "]. *)
Definition space : Ascii.ascii :=
  Ascii.Ascii false false false false false true false false.

(** [text.split(" ")]: the words between the spaces of [text], as the first
    word and the list of those after it (there is always a first word; two
    spaces in a row enclose an empty word). *)
Fixpoint split_spaces (text : string) : string * list string :=
  match text with
  | EmptyString => (EmptyString, [])
  | String c rest =>
      let '(w, ws) := split_spaces rest in
      if Ascii.eqb c space then (EmptyString, w :: ws) else (String c w, ws)
  end.

(** The loop of [wrapText] from the word it has reached, with [currentLine]
    as it stands; the result is what is pushed on [lines] from there on, the
    push after the loop included.  [fits s] stands for
    [context.measureText(s).width < maxWidth]. *)
Fixpoint wrap_from (fits : string -> bool) (currentLine : string)
    (words : list string) : list string :=
  match words with
  | [] => [currentLine]
  | word :: rest =>
      if fits (currentLine +:+ " " +:+ word)
      then wrap_from fits (currentLine +:+ " " +:+ word) rest
      else currentLine :: wrap_from fits word rest
  end.

Definition wrapText (fits : string -> bool) (text : string) : list string :=
  let '(w0, rest) := split_spaces text in wrap_from fits w0 rest.

(** [first + " " + rest.join(" ")]: the words put back with one space
    between them. *)
Fixpoint join_spaces (first : string) (rest : list string) : string :=
  match rest with
  | [] => first
  | x :: r => first +:+ " " +:+ join_spaces x r
  end.

(** [lines.join(" ")] *)
Definition join_lines (lines : list string) : string :=
  match lines with
  | [] => EmptyString
  | x :: r => join_spaces x r
  end.

(** A width test for the examples: at most twelve characters fit. *)
Definition fits_12 (s : string) : bool := Nat.leb (String.length s) 12.

(** ** Start-up *)

(** The calls [ensureFiles] makes on a disk: one for each directory and
    each file that is missing. *)
Definition ensure_calls (d : disk) : list syscall :=
  (if data_dir d then [] else [SysMkdir DATA_DIR]) ++
  (if log_dir d then [] else [SysMkdir LOG_DIR]) ++
  match banned_file d with
  | Some _ => []
  | None => [SysWriteBanned (TextJson ∅)]
  end ++
  match request_log d with
  | Some _ => []
  | None => [SysWriteLog]
  end.

(** The text [loadBanned] finds when [ensureFiles] has returned: the one
    that was on disk, or the rendering of the empty map that [ensureFiles]
    has written in the place of a missing file. *)
Definition start_text (d : disk) : ban_text := default (TextJson ∅) (banned_file d).

(** What [readFileSync(BANNED_FILE)] gives at start-up. *)
Definition start_read (w : world) : exn + ban_text :=
  if io_ok w SysReadBanned then inr (start_text (fs w)) else inl EIO.

(** ** Addresses that name what [banned] inherits *)

(** Four requests whose address is ["constructor"]: with [trust proxy] set,
    [req.ip] is what the [X-Forwarded-For] header of the request says. *)
Definition four_from_constructor : list (request * clock_reads) :=
  [(from "constructor", at_ 0); (from "constructor", at_ 100);
   (from "constructor", at_ 200); (from "constructor", at_ 300)].

(** "B" is banned, in memory and on disk; every write to the ban file is
    refused, after the file has been emptied. *)
Definition w_ban_emptied : world :=
  let b := {["B"%string := BanRecord 5 "manual" "rateLimiter"]} in
  World b ∅ (Disk true true (Some (TextJson b)) (Some []))
        (fun c => match c with SysWriteBanned _ => false | _ => true end)
        [] [] None [] None (fun _ => Emptied).

(** The tracker holds an old instant of a client whose address is
    ["reason"]; then ["__proto__"] has been banned. *)
Definition w_reason : world :=
  (banIp 1000 "__proto__" (Some "manual"%string)
         (set_ipTimestamps {["reason"%string := [0]]} w0)).2.

(** * Reasoning about computations *)

(** Unfolds the primitives down to a match on the state. *)
Ltac run_prims :=
  unfold returns, try_catch, fs_appendFileSync_log, fs_writeFileSync_banned,
    fs_readFileSync_banned, console_error, sys, when, bind, gets, modify, ret, throw;
  cbn.

Section Returns.
Context {A B : Type}.

Lemma returns_ret (a : A) w (Q : A -> world -> Prop) :
  Q a w -> returns (ret a) w Q.
Proof. intros HQ. exists a, w. split; [reflexivity | exact HQ]. Qed.

Lemma returns_gets (f : world -> A) w (Q : A -> world -> Prop) :
  Q (f w) w -> returns (gets f) w Q.
Proof. intros HQ. exists (f w), w. split; [reflexivity | exact HQ]. Qed.

Lemma returns_bind (m : M A) (k : A -> M B) w (Q : B -> world -> Prop) :
  returns m w (fun a w' => returns (k a) w' Q) -> returns (bind m k) w Q.
Proof.
  intros (a & w1 & Hm & b & w2 & Hk & HQ).
  exists b, w2. split; [| exact HQ].
  unfold bind. rewrite Hm. exact Hk.
Qed.

Lemma returns_mono (m : M A) w (P Q : A -> world -> Prop) :
  returns m w P -> (forall a w', P a w' -> Q a w') -> returns m w Q.
Proof. intros (a & w' & Hm & HP) HPQ. exists a, w'. auto. Qed.

Lemma returns_inv (m : M A) w (Q : A -> world -> Prop) a w' :
  returns m w Q -> m w = (inr a, w') -> Q a w'.
Proof. intros (a0 & w0' & Hm & HQ) Heq. congruence. Qed.

Lemma returns_not_throws (m : M A) w Q R :
  returns m w Q -> ~ throws m w R.
Proof. intros (a & w1 & Hm & _) (e & w2 & He & _). congruence. Qed.

Lemma returns_after (m : M A) (k : A -> M B) w a w1 Q :
  m w = (inr a, w1) -> returns (k a) w1 Q -> returns (bind m k) w Q.
Proof.
  intros Hm (b & w2 & Hk & HQ). exists b, w2. split; [| exact HQ].
  unfold bind. rewrite Hm. exact Hk.
Qed.
End Returns.

Lemma returns_modify (f : world -> world) w (Q : unit -> world -> Prop) :
  Q tt (f w) -> returns (modify f) w Q.
Proof. intros HQ. exists tt, (f w). split; [reflexivity | exact HQ]. Qed.

Lemma same_memory_refl w : same_memory w w.
Proof. repeat split. Qed.

Lemma same_memory_trans w1 w2 w3 :
  same_memory w1 w2 -> same_memory w2 w3 -> same_memory w1 w3.
Proof.
  unfold same_memory. intros (?&?&?&?&?&?&?) (?&?&?&?&?&?&?).
  repeat split; congruence.
Qed.

(** ** Reading and writing [banned] *)

Lemma banned_read_own w ip r :
  banned w !! ip = Some r -> banned_read w ip = ReadRecord r.
Proof. intros H. unfold banned_read. by rewrite H. Qed.

Lemma listed_own w ip r : banned w !! ip = Some r -> listed w ip = true.
Proof. intros H. unfold listed. by rewrite (banned_read_own _ _ _ H). Qed.

Lemma unlisted_own w ip : listed w ip = false -> banned w !! ip = None.
Proof.
  unfold listed, banned_read. destruct (banned w !! ip); [discriminate | reflexivity].
Qed.

Lemma unlisted_plain w ip : listed w ip = false -> plain_key w ip = true.
Proof.
  unfold listed, plain_key, banned_read.
  destruct (banned w !! ip); [discriminate |]. by intros ->.
Qed.

Lemma unlisted_not_proto w ip : listed w ip = false -> ip <> "__proto__"%string.
Proof.
  intros H ->. apply unlisted_plain in H. unfold plain_key, inherited_value in H.
  cbn in H. destruct (banned_proto w); discriminate.
Qed.

Lemma plain_unlisted w ip :
  plain_key w ip = true -> banned w !! ip = None -> listed w ip = false.
Proof.
  unfold listed, plain_key, banned_read. intros Hp ->.
  by apply negb_true_iff in Hp.
Qed.

Lemma builtin_read w ip :
  ip ∈ Object_prototype_keys -> banned w !! ip = None -> banned_proto w = None ->
  banned_read w ip = ReadBuiltin.
Proof.
  intros Hin Hown Hp. unfold banned_read, inherited_value. rewrite Hown, Hp.
  destruct (decide _); [reflexivity |].
  by rewrite (bool_decide_eq_true_2 _ Hin).
Qed.

Lemma banned_assign_own k r w :
  k <> "__proto__"%string \/ is_Some (banned w !! k) ->
  banned_assign k r w = set_banned (<[k := r]> (banned w)) w.
Proof.
  intros H. unfold banned_assign. rewrite bool_decide_eq_false_2; [reflexivity |].
  intros [-> Hn]. destruct H as [H | [x H]]; [contradiction | congruence].
Qed.

Lemma banned_assign_proto r w :
  banned w !! "__proto__" = None ->
  banned_assign "__proto__" r w = set_banned_proto (Some r) w.
Proof.
  intros H. unfold banned_assign. rewrite bool_decide_eq_true_2 by auto. reflexivity.
Qed.

Lemma banned_assign_env k r w :
  let w' := banned_assign k r w in
  ipTimestamps w' = ipTimestamps w /\ fs w' = fs w /\ io_ok w' = io_ok w /\
  syscalls w' = syscalls w /\ console w' = console w /\
  ADMIN_KEY w' = ADMIN_KEY w /\ outbox w' = outbox w /\ io_damage w' = io_damage w.
Proof. repeat split. Qed.

Lemma banned_assign_listed k r w : listed (banned_assign k r w) k = true.
Proof.
  unfold banned_assign. destruct (bool_decide _) eqn:Hd.
  - apply bool_decide_eq_true_1 in Hd as [-> Hn].
    unfold listed, banned_read. cbn. rewrite Hn. reflexivity.
  - apply (listed_own _ _ r). cbn. apply lookup_insert_eq.
Qed.

(** ** The two writers never throw *)

Lemma appendLog_returns line w :
  returns (appendLog line) w (fun _ w' =>
    same_memory w w' /\
    syscalls w' = syscalls w ++ [SysAppendLog line] /\
    banned_file (fs w') = banned_file (fs w) /\
    console w' = console w ++ append_failed line w /\
    request_log (fs w') =
      (if append_lands line w
       then Some (default [] (request_log (fs w)) ++ [line])
       else request_log (fs w)) /\
    data_dir (fs w') = data_dir (fs w) /\
    log_dir (fs w') = log_dir (fs w)).
Proof.
  unfold appendLog, append_failed, append_error, append_lands. run_prims.
  destruct (io_ok w (SysAppendLog line)); cbn;
    [destruct (log_dir (fs w)) eqn:Hld; cbn |];
    eexists _, _; (split; [reflexivity |]); cbn;
    repeat split; rewrite ?app_nil_r, ?Hld; reflexivity.
Qed.

Lemma saveBanned_returns w :
  let t := TextJson (banned w) in
  returns saveBanned w (fun _ w' =>
    same_memory w w' /\
    syscalls w' = syscalls w ++ [SysWriteBanned t] /\
    request_log (fs w') = request_log (fs w) /\
    log_dir (fs w') = log_dir (fs w) /\
    data_dir (fs w') = data_dir (fs w) /\
    console w' = console w ++ save_failed t w /\
    banned_file (fs w') = write_leaves t w).
Proof.
  unfold saveBanned, save_failed, write_error, write_leaves, write_lands, JSON_stringify.
  run_prims.
  destruct (io_ok w (SysWriteBanned (TextJson (banned w)))); cbn;
    destruct (data_dir (fs w)) eqn:Hdd; cbn;
    eexists _, _; (split; [reflexivity |]); cbn;
    repeat split; rewrite ?app_nil_r, ?Hdd; reflexivity.
Qed.

(** A refused write changes nothing of what the calls after it meet. *)
Lemma write_lands_env t w w' :
  io_ok w' = io_ok w -> data_dir (fs w') = data_dir (fs w) ->
  write_lands t w' = write_lands t w.
Proof. intros Hio Hdd. unfold write_lands. by rewrite Hio, Hdd. Qed.

Lemma save_failed_env t w w' :
  io_ok w' = io_ok w -> data_dir (fs w') = data_dir (fs w) ->
  save_failed t w' = save_failed t w.
Proof.
  intros Hio Hdd. unfold save_failed, write_error.
  by rewrite (write_lands_env t w w' Hio Hdd), Hio.
Qed.

Lemma append_failed_env l w w' :
  io_ok w' = io_ok w -> log_dir (fs w') = log_dir (fs w) ->
  append_failed l w' = append_failed l w.
Proof.
  intros Hio Hld. unfold append_failed, append_error, append_lands.
  by rewrite Hio, Hld.
Qed.

Lemma write_leaves_lands t w : write_lands t w = true -> write_leaves t w = Some t.
Proof. unfold write_leaves. by intros ->. Qed.

(** ** [banIp] and [unbanIp] *)

Lemma banIp_returns now ip why w :
  let r := BanRecord now (default "rate_limit_exceeded"%string why) "rateLimiter" in
  let wb := banned_assign ip r w in
  let t := TextJson (banned wb) in
  returns (banIp now ip why) w (fun _ w' =>
    banned w' = banned wb /\ banned_proto w' = banned_proto wb /\
    ipTimestamps w' = ipTimestamps w /\
    outbox w' = outbox w /\ io_ok w' = io_ok w /\ ADMIN_KEY w' = ADMIN_KEY w /\
    io_damage w' = io_damage w /\
    syscalls w' = syscalls w ++
      [SysWriteBanned t; SysAppendLog (LogBan now ip (reason r))] /\
    banned_file (fs w') = write_leaves t w /\
    console w' = console w ++ save_failed t w
                           ++ append_failed (LogBan now ip (reason r)) w).
Proof.
  intros r wb t. unfold banIp.
  apply returns_bind, returns_modify. fold r wb.
  destruct (banned_assign_env ip r w) as (Ht0 & Hfs0 & Hio0 & Hsys0 & Hc0 & Hk0 & Ho0 & Hd0).
  fold wb in Ht0, Hfs0, Hio0, Hsys0, Hc0, Hk0, Ho0, Hd0.
  apply returns_bind.
  eapply returns_mono; [apply saveBanned_returns |].
  cbn. fold t.
  intros [] w1 ((Hb1 & Ht1 & Ho1 & Hio1 & Hk1 & Hp1 & Hd1) & Hsys1 & _ & Hld1 & Hdd1 & Hc1 & Hfile1).
  eapply returns_mono; [apply appendLog_returns |].
  cbn. intros [] w2 ((Hb2 & Ht2 & Ho2 & Hio2 & Hk2 & Hp2 & Hd2) & Hsys2 & Hbf2 & Hc2 & _).
  assert (Hwl : write_leaves t wb = write_leaves t w)
    by (unfold write_leaves, write_lands; by rewrite Hio0, Hfs0, Hd0).
  assert (Hsf : save_failed t wb = save_failed t w)
    by (apply save_failed_env; [exact Hio0 | by rewrite Hfs0]).
  repeat split; try congruence.
  - rewrite Hsys2, Hsys1, Hsys0, <- app_assoc. reflexivity.
  - rewrite Hc2, Hc1, Hc0, Hsf, <- app_assoc. f_equal. f_equal.
    apply append_failed_env; [congruence |]. by rewrite Hld1, Hfs0.
Qed.

Lemma unbanIp_absent now ip w :
  listed w ip = false -> unbanIp now ip w = (inr false, w).
Proof.
  intros H. unfold unbanIp, bind, gets. cbn. fold (listed w ip). rewrite H. reflexivity.
Qed.

Lemma unbanIp_present now ip w :
  listed w ip = true ->
  let b' := delete ip (banned w) in
  returns (unbanIp now ip) w (fun ok w' =>
    ok = true /\
    banned w' = b' /\ banned_proto w' = banned_proto w /\
    ipTimestamps w' = ipTimestamps w /\
    outbox w' = outbox w /\ io_ok w' = io_ok w /\ ADMIN_KEY w' = ADMIN_KEY w /\
    io_damage w' = io_damage w /\
    syscalls w' = syscalls w ++
      [SysWriteBanned (TextJson b'); SysAppendLog (LogUnban now ip)] /\
    banned_file (fs w') = write_leaves (TextJson b') w).
Proof.
  intros H b'. unfold unbanIp.
  apply returns_bind, returns_gets. fold (listed w ip). rewrite H.
  apply returns_bind, returns_modify.
  apply returns_bind.
  eapply returns_mono; [apply saveBanned_returns |].
  cbn. intros [] w1 ((Hb1 & Ht1 & Ho1 & Hio1 & Hk1 & Hp1 & Hd1) & Hsys1 & _ & Hld1 & Hdd1 & Hc1 & Hfile1).
  apply returns_bind.
  eapply returns_mono; [apply appendLog_returns |].
  cbn. intros [] w2 ((Hb2 & Ht2 & Ho2 & Hio2 & Hk2 & Hp2 & Hd2) & Hsys2 & Hbf2 & _).
  apply returns_ret.
  cbn in *. fold b' in Hsys1, Hfile1, Hb1.
  repeat split; try congruence.
  - rewrite Hsys2, Hsys1, <- app_assoc. reflexivity.
  - rewrite Hbf2. exact Hfile1.
Qed.

(** ** One pass through the middleware *)

Lemma middleware_listed opts req clk w :
  listed w (client_ip req) = true ->
  returns (rateLimiterMiddleware opts req clk) w (fun _ w' =>
    outbox w' = outbox w ++ [Send 403 (blocked_body (banned_read w (client_ip req)))] /\
    banned w' = banned w /\ banned_proto w' = banned_proto w /\
    ipTimestamps w' = ipTimestamps w /\
    io_ok w' = io_ok w /\ ADMIN_KEY w' = ADMIN_KEY w /\ io_damage w' = io_damage w /\
    syscalls w' = syscalls w ++
      [SysAppendLog (LogBlockedReq (date_log clk) (client_ip req) (req_path req) (req_method req))]).
Proof.
  intros Hb. unfold rateLimiterMiddleware.
  apply returns_bind, returns_gets. fold (listed w (client_ip req)). rewrite Hb.
  apply returns_bind, returns_modify.
  eapply returns_mono; [apply appendLog_returns |].
  cbn. intros [] w1 ((Hb1 & Ht1 & Ho1 & Hio1 & Hk1 & Hp1 & Hd1) & Hsys1 & _).
  cbn in *. repeat split; congruence.
Qed.

Lemma middleware_blocked opts req clk w info :
  banned w !! client_ip req = Some info ->
  returns (rateLimiterMiddleware opts req clk) w (fun _ w' =>
    outbox w' = outbox w ++ [Send 403 (BlockedBody (bannedAt info) (reason info))] /\
    banned w' = banned w /\
    ipTimestamps w' = ipTimestamps w /\
    io_ok w' = io_ok w /\ ADMIN_KEY w' = ADMIN_KEY w /\
    syscalls w' = syscalls w ++
      [SysAppendLog (LogBlockedReq (date_log clk) (client_ip req) (req_path req) (req_method req))]).
Proof.
  intros Hb.
  eapply returns_mono; [apply middleware_listed, (listed_own _ _ _ Hb) |].
  cbn. rewrite (banned_read_own _ _ _ Hb). cbn.
  intros [] w' (? & ? & ? & ? & ? & ? & ? & ?). auto 10.
Qed.

Lemma middleware_unbanned opts req clk w :
  listed w (client_ip req) = false ->
  let ip := client_ip req in
  let recent := recorded (window_of opts) (date_now clk) (ipTimestamps w !! ip) in
  returns (rateLimiterMiddleware opts req clk) w (fun _ w' =>
    ipTimestamps w' = <[ip := recent]> (ipTimestamps w) /\
    io_ok w' = io_ok w /\ ADMIN_KEY w' = ADMIN_KEY w /\
    banned_proto w' = banned_proto w /\ io_damage w' = io_damage w /\
    (exists rest, syscalls w' = syscalls w ++
       SysAppendLog (LogReq (date_log clk) ip (req_method req) (req_path req) (length recent))
       :: rest) /\
    if decide (max_of opts < Z.of_nat (length recent)) then
      let why := exceeded_reason (max_of opts) (window_of opts) in
      let b' := <[ip := BanRecord (date_ban clk) why "rateLimiter"]> (banned w) in
      outbox w' = outbox w ++ [Send 429 (ExceededBody (max_of opts) (window_of opts))] /\
      banned w' = b' /\
      banned_file (fs w') = write_leaves (TextJson b') w /\
      exists pre, console w' = pre ++ save_failed (TextJson b') w
                                   ++ append_failed (LogBan (date_ban clk) ip why) w
    else
      outbox w' = outbox w ++ [Next] /\ banned w' = banned w).
Proof.
  intros Hb ip recent. unfold rateLimiterMiddleware.
  fold (max_of opts) (window_of opts).
  apply returns_bind, returns_gets. fold (listed w (client_ip req)). rewrite Hb.
  apply returns_bind, returns_gets. fold ip.
  fold (recorded (window_of opts) (date_now clk) (ipTimestamps w !! ip)). fold recent.
  apply returns_bind, returns_modify.
  apply returns_bind.
  eapply returns_mono; [apply appendLog_returns |].
  cbn. intros [] w1 ((Hb1 & Ht1 & Ho1 & Hio1 & Hk1 & Hp1 & Hd1) & Hsys1 & Hbf1 & Hc1 & _ & Hdd1 & Hld1).
  cbn in *. destruct (decide (max_of opts < Z.of_nat (length recent))) as [Hgt | Hle].
  - apply returns_bind.
    eapply returns_mono; [apply banIp_returns |].
    cbn. rewrite banned_assign_own by (left; apply (unlisted_not_proto w); exact Hb).
    cbn.
    intros [] w2 (Hb2 & Hp2 & Ht2 & Ho2 & Hio2 & Hk2 & Hd2 & Hsys2 & Hbf2 & Hc2).
    apply returns_modify. cbn.
    assert (Hwl : forall t, write_leaves t w1 = write_leaves t w)
      by (intros t; unfold write_leaves, write_lands; by rewrite Hio1, Hdd1, Hbf1, Hd1).
    assert (Hwe : forall t, save_failed t w1 = save_failed t w)
      by (intros t; by apply save_failed_env).
    assert (Hae : forall l, append_failed l w1 = append_failed l w)
      by (intros l; by apply append_failed_env).
    rewrite Hwl in Hbf2. rewrite Hwe, Hae in Hc2. rewrite Hb1 in Hb2, Hbf2, Hc2.
    repeat split; try congruence.
    + rewrite Hsys2, Hsys1, <- app_assoc. eexists. reflexivity.
    + eexists. exact Hc2.
  - apply returns_modify. cbn.
    repeat split; try congruence.
    exists []. exact Hsys1.
Qed.


(** A pass that bans nobody and one that bans its client both leave the
    client listed exactly when it was listed or has just been banned. *)
Lemma listed_insert_other w w' k ip r :
  banned w' = <[k := r]> (banned w) -> banned_proto w' = banned_proto w ->
  k <> ip -> listed w' ip = listed w ip.
Proof.
  intros Hb Hp Hne. unfold listed, banned_read.
  by rewrite Hb, Hp, lookup_insert_ne.
Qed.

Lemma listed_same w w' ip :
  banned w' = banned w -> banned_proto w' = banned_proto w ->
  listed w' ip = listed w ip.
Proof. intros Hb Hp. unfold listed, banned_read. by rewrite Hb, Hp. Qed.

(** ** Windows *)

Lemma within_window_prefix W l1 l2 :
  within_window W (l1 ++ l2) -> within_window W l1.
Proof.
  intros H i j ti tj Hi Hj Hle.
  apply (H i j); [by apply lookup_app_l_Some | by apply lookup_app_l_Some | done].
Qed.

Lemma within_window_last W l now :
  within_window W (l ++ [now]) -> Forall (fun t => now - t ≤ W) (l ++ [now]).
Proof.
  intros H. apply Forall_lookup. intros j tj Hj.
  apply (H (length l) j).
  - rewrite lookup_app_r by lia. by rewrite Nat.sub_diag.
  - exact Hj.
  - apply lookup_lt_Some in Hj. rewrite length_app in Hj. cbn in Hj. lia.
Qed.

Lemma recent_of_all W now l :
  Forall (fun t => now - t ≤ W) l -> recent_of W now l = l.
Proof.
  unfold recent_of. induction 1 as [| t l Ht _ IH]; [reflexivity |].
  rewrite filter_cons_True by exact Ht. by rewrite IH.
Qed.

Lemma recent_of_none W now l :
  Forall (fun t => W < now - t) l -> recent_of W now l = [].
Proof.
  unfold recent_of. induction 1 as [| t l Ht _ IH]; [reflexivity |].
  rewrite filter_cons_False by lia. exact IH.
Qed.

Lemma recent_of_app W now l1 l2 :
  recent_of W now (l1 ++ l2) = recent_of W now l1 ++ recent_of W now l2.
Proof. apply filter_app. Qed.

Lemma recent_of_now W now :
  0 ≤ W -> recent_of W now [now] = [now].
Proof. intros HW. apply recent_of_all. repeat constructor. lia. Qed.

Lemma recorded_all W now stored :
  within_window W (default [] stored ++ [now]) ->
  recorded W now stored = default [] stored ++ [now].
Proof. intros H. apply recent_of_all, within_window_last, H. Qed.

(** ** Runs of requests from one client *)

Lemma serve_allowed opts ip rs : forall w,
  listed w ip = false ->
  Forall (fun rc => client_ip rc.1 = ip) rs ->
  within_window (window_of opts) (default [] (ipTimestamps w !! ip) ++ instants rs) ->
  Z.of_nat (length (default [] (ipTimestamps w !! ip)) + length rs) ≤ max_of opts ->
  returns (serve (rateLimiterMiddleware opts) rs) w (fun _ w' =>
    outbox w' = outbox w ++ replicate (length rs) Next /\
    banned w' = banned w /\ banned_proto w' = banned_proto w /\
    default [] (ipTimestamps w' !! ip) =
      default [] (ipTimestamps w !! ip) ++ instants rs).
Proof.
  induction rs as [| [req clk] rs IH]; intros w Hb Hip Hwin Hlen.
  - apply returns_ret. cbn. by rewrite !app_nil_r.
  - apply Forall_cons in Hip as [Hreq Hip]. cbn in Hreq.
    cbn [serve]. apply returns_bind.
    eapply returns_mono; [apply middleware_unbanned; by rewrite Hreq |].
    cbn. rewrite Hreq. intros [] w1 (Ht1 & _ & _ & Hp1 & _ & _ & Hcase).
    cbn [instants map] in Hwin. change (date_now (req, clk).2) with (date_now clk) in Hwin.
    rewrite (cons_middle (date_now clk)), app_assoc in Hwin.
    rewrite recorded_all in Hcase, Ht1 by (eapply within_window_prefix; exact Hwin).
    rewrite length_app in Hcase. cbn in Hcase, Hlen.
    destruct (decide _) as [Hgt | _] in Hcase; [lia |].
    destruct Hcase as [Ho1 Hb1].
    assert (Hs1 : default [] (ipTimestamps w1 !! ip) =
                  default [] (ipTimestamps w !! ip) ++ [date_now clk]).
    { rewrite Ht1, lookup_insert_eq. reflexivity. }
    eapply returns_mono; [apply IH |].
    + rewrite (listed_same w w1) by assumption. exact Hb.
    + exact Hip.
    + rewrite Hs1. exact Hwin.
    + rewrite Hs1, length_app. cbn. lia.
    + cbn. intros [] w2 (Ho2 & Hb2 & Hp2 & Hs2).
      repeat split.
      * rewrite Ho2, Ho1, <- app_assoc. reflexivity.
      * congruence.
      * congruence.
      * rewrite Hs2, Hs1, <- app_assoc. reflexivity.
Qed.

(** A run of requests of one client that is listed: every one is answered
    403 and nothing is counted. *)
Lemma serve_listed opts ip rs : forall w,
  listed w ip = true ->
  Forall (fun rc => client_ip rc.1 = ip) rs ->
  returns (serve (rateLimiterMiddleware opts) rs) w (fun _ w' =>
    outbox w' = outbox w ++
      replicate (length rs) (Send 403 (blocked_body (banned_read w ip))) /\
    banned w' = banned w /\ banned_proto w' = banned_proto w /\
    ipTimestamps w' = ipTimestamps w).
Proof.
  induction rs as [| [req clk] rs IH]; intros w Hb Hip.
  - apply returns_ret. cbn. by rewrite !app_nil_r.
  - apply Forall_cons in Hip as [Hreq Hip]. cbn in Hreq.
    cbn [serve]. apply returns_bind.
    eapply returns_mono; [apply middleware_listed; by rewrite Hreq |].
    cbn. rewrite Hreq. intros [] w1 (Ho1 & Hb1 & Hp1 & Ht1 & _).
    eapply returns_mono; [apply IH |].
    + rewrite (listed_same w w1) by assumption. exact Hb.
    + exact Hip.
    + cbn. intros [] w2 (Ho2 & Hb2 & Hp2 & Ht2).
      assert (Hread : banned_read w1 ip = banned_read w ip)
        by (unfold banned_read; by rewrite Hb1, Hp1).
      rewrite Hread in Ho2.
      repeat split; try congruence.
      rewrite Ho2, Ho1, <- app_assoc. reflexivity.
Qed.

(** ** Names that every object inherits *)

Lemma builtin_listed w ip : ip ∈ Object_prototype_keys -> listed w ip = true.
Proof.
  intros Hin. unfold listed, banned_read.
  destruct (banned w !! ip); [reflexivity |].
  unfold inherited_value. destruct (decide (ip = "__proto__"%string)).
  - destruct (banned_proto w); reflexivity.
  - rewrite (bool_decide_eq_true_2 _ Hin).
    destruct (banned_proto w) as [r |]; [| reflexivity].
    repeat (destruct (decide _) as [-> |];
            [exfalso; revert Hin; vm_compute; intros Hin;
             repeat (apply elem_of_cons in Hin as [Hin | Hin]; [discriminate |]);
             by apply elem_of_nil in Hin |]).
    reflexivity.
Qed.

Lemma builtin_not_empty ip : ip ∈ Object_prototype_keys -> ip <> ""%string.
Proof.
  intros Hin ->. revert Hin. unfold Object_prototype_keys. intros Hin.
  repeat (apply elem_of_cons in Hin as [Hin | Hin]; [discriminate |]).
  by apply elem_of_nil in Hin.
Qed.

(** * The claims *)

(** C1.  Where the claim fails.  [banned] is a plain object, and
    [banned[ip]] also finds what the object inherits.  A client whose
    address is the name of a property of [Object.prototype] has no ban
    record; yet every request of a run of its requests, from the first on,
    is answered 403, without [bannedAt] and [reason].  None reaches
    [next()], none is answered 429, nothing is counted and no ban record is
    made, however many requests there are. *)
Theorem builtin_name_never_admitted opts ip rs w :
  ip ∈ Object_prototype_keys ->
  banned w !! ip = None ->
  banned_proto w = None ->
  Forall (fun rc => client_ip rc.1 = ip) rs ->
  returns (serve (rateLimiterMiddleware opts) rs) w (fun _ w' =>
    outbox w' = outbox w ++ replicate (length rs) (Send 403 BlockedBareBody) /\
    banned w' = banned w /\
    ipTimestamps w' = ipTimestamps w).
Proof.
  intros Hin Hown Hproto Hip.
  eapply returns_mono; [apply (serve_listed opts ip rs w (builtin_listed w ip Hin) Hip) |].
  cbn. rewrite (builtin_read w ip Hin Hown Hproto). cbn.
  intros [] w' (Ho & Hb & _ & Ht). auto.
Qed.

Lemma builtin_name_never_admitted_witness :
  returns (serve (rateLimiterMiddleware opts_3_1000) four_from_constructor) w0 (fun _ w' =>
    outbox w' = outbox w0 ++ replicate 4 (Send 403 BlockedBareBody) /\
    banned w' = banned w0 /\
    ipTimestamps w' = ipTimestamps w0).
Proof.
  apply (builtin_name_never_admitted opts_3_1000 "constructor" four_from_constructor w0).
  - vm_compute. repeat constructor.
  - reflexivity.
  - reflexivity.
  - repeat constructor.
Defined.

(** C2 (as amended).  [banIp] has no test for an existing record: for an
    address other than ["__proto__"], whatever was stored under it, after
    the call the record there carries the instant and the reason of this
    call, and the other addresses keep theirs.  The last ban wins. *)
Theorem ban_last_wins now ip why w :
  ip <> "__proto__"%string ->
  let r := BanRecord now (default "rate_limit_exceeded"%string why) "rateLimiter" in
  returns (banIp now ip why) w (fun _ w' =>
    banned w' = <[ip := r]> (banned w) /\ banned w' !! ip = Some r).
Proof.
  intros Hip r. eapply returns_mono; [apply banIp_returns |].
  cbn. rewrite banned_assign_own by (left; exact Hip). cbn.
  intros [] w' (Hb & _). split; [exact Hb |].
  rewrite Hb. apply lookup_insert_eq.
Qed.

Lemma ban_last_wins_witness :
  returns (banIp 2000 "A" (Some "second"%string)) w_banned (fun _ w' =>
    banned w' = <[ "A"%string := BanRecord 2000 "second" "rateLimiter" ]> (banned w_banned) /\
    banned w' !! "A" = Some (BanRecord 2000 "second" "rateLimiter")).
Proof.
  apply (ban_last_wins 2000 "A" (Some "second"%string) w_banned). discriminate.
Defined.

(** C2 as stated fails: "A" is banned at 1000 for "first", then [banIp] is
    called again at 2000 for "second"; the record now reads 2000 and
    "second". *)
Lemma second_ban_overwrites :
  returns (banIp 1000 "A" (Some "first"%string)) w0 (fun _ w1 =>
    banned w1 !! "A" = Some (BanRecord 1000 "first" "rateLimiter") /\
    returns (banIp 2000 "A" (Some "second"%string)) w1 (fun _ w2 =>
      banned w2 !! "A" = Some (BanRecord 2000 "second" "rateLimiter"))).
Proof.
  eapply returns_mono; [apply banIp_returns |].
  cbn. rewrite banned_assign_own by (left; discriminate). cbn.
  intros [] w1 (Hb1 & _). split.
  - rewrite Hb1. apply lookup_insert_eq.
  - eapply returns_mono; [apply banIp_returns |].
    cbn. rewrite banned_assign_own by (left; discriminate). cbn.
    intros [] w2 (Hb2 & _). rewrite Hb2. apply lookup_insert_eq.
Qed.

(** C3 (as amended).  The client has a ban record, and its address names
    nothing that [banned] inherits.  [unbanIp] deletes the record and
    leaves [ipTimestamps] as it was.  The next request of that client is
    counted against the instants stored before the ban: those still inside
    the window, plus the request itself.  It goes to [next()] when that
    count does not exceed the limit; otherwise it is answered 429 and the
    client has a ban record again. *)
Theorem unban_leaves_window opts req clk now r w :
  0 ≤ window_of opts ->
  banned w !! client_ip req = Some r ->
  plain_key w (client_ip req) = true ->
  returns (unbanIp now (client_ip req)) w (fun ok w1 =>
    ok = true /\
    banned w1 !! client_ip req = None /\
    ipTimestamps w1 = ipTimestamps w /\
    returns (rateLimiterMiddleware opts req clk) w1 (fun _ w2 =>
      let kept := recent_of (window_of opts) (date_now clk)
                            (default [] (ipTimestamps w !! client_ip req)) in
      ipTimestamps w2 !! client_ip req = Some (kept ++ [date_now clk]) /\
      if decide (max_of opts < Z.of_nat (length kept) + 1) then
        outbox w2 = outbox w1 ++ [Send 429 (ExceededBody (max_of opts) (window_of opts))] /\
        banned w2 !! client_ip req =
          Some (BanRecord (date_ban clk)
                          (exceeded_reason (max_of opts) (window_of opts))
                          "rateLimiter")
      else
        outbox w2 = outbox w1 ++ [Next] /\ banned w2 = banned w1)).
Proof.
  intros HW Hb Hplain.
  eapply returns_mono; [eapply unbanIp_present, listed_own; exact Hb |].
  cbn. intros ok w1 (Hok & Hb1 & Hp1 & Ht1 & _).
  assert (Hnone : banned w1 !! client_ip req = None)
    by (rewrite Hb1; apply lookup_delete_eq).
  assert (Hun : listed w1 (client_ip req) = false).
  { apply plain_unlisted; [| exact Hnone]. unfold plain_key. by rewrite Hp1. }
  repeat split; try assumption.
  eapply returns_mono; [apply middleware_unbanned; exact Hun |].
  cbn. intros [] w2 (Ht2 & _ & _ & _ & _ & _ & Hcase).
  unfold recorded in Ht2, Hcase. rewrite Ht1 in Ht2, Hcase.
  rewrite recent_of_app, recent_of_now in Ht2, Hcase by exact HW.
  split; [rewrite Ht2; apply lookup_insert_eq |].
  rewrite length_app in Hcase. cbn [length] in Hcase.
  replace (Z.of_nat (_ + 1)%nat) with
    (Z.of_nat (length (recent_of (window_of opts) (date_now clk)
                 (default [] (ipTimestamps w !! client_ip req)))) + 1) in Hcase by lia.
  destruct (decide _).
  - destruct Hcase as (Ho2 & Hb2 & _). split; [exact Ho2 |].
    rewrite Hb2. apply lookup_insert_eq.
  - exact Hcase.
Qed.

Lemma unban_leaves_window_witness :
  returns (unbanIp 350 "A") w_banned (fun ok w1 =>
    ok = true /\
    banned w1 !! "A" = None /\
    ipTimestamps w1 = ipTimestamps w_banned /\
    returns (rateLimiterMiddleware opts_3_1000 (from "A") (at_ 5000)) w1 (fun _ w2 =>
      ipTimestamps w2 !! "A" = Some [5000] /\
      outbox w2 = outbox w1 ++ [Next] /\ banned w2 = banned w1)).
Proof.
  apply (unban_leaves_window opts_3_1000 (from "A") (at_ 5000) 350
           (BanRecord 300 "exceeded_3_per_1000ms" "rateLimiter") w_banned).
  - vm_compute. discriminate.
  - vm_compute. reflexivity.
  - vm_compute. reflexivity.
Defined.

(** C3 as stated fails: "A" is banned by its fourth request at 300, is
    unbanned at 350 and asks again at 400.  The four old instants are still
    stored and inside the window, the count is 5, and "A" is banned again
    instead of being admitted with a count of 1. *)
Lemma unban_keeps_old_timestamps :
  returns ban_unban_retry w0 (fun ok w' =>
    ok = true /\
    outbox w' = [Next; Next; Next;
                 Send 429 (ExceededBody 3 1000); Send 429 (ExceededBody 3 1000)] /\
    ipTimestamps w' !! "A" = Some [0; 100; 200; 300; 400] /\
    last (default [] (request_log (fs w'))) =
      Some (LogBan 400 "A" "exceeded_3_per_1000ms") /\
    LogReq 400 "A" "GET" "/" 5 ∈ default [] (request_log (fs w')) /\
    banned w' !! "A" = Some (BanRecord 400 "exceeded_3_per_1000ms" "rateLimiter")).
Proof.
  unfold returns. eexists _, _. split; [vm_compute; reflexivity |].
  repeat split; try (vm_compute; reflexivity).
  cbn. repeat (first [apply list_elem_of_here | apply list_elem_of_further]).
Qed.

(** ** What happens to a ban while the server runs *)

Lemma handle_keeps_ban e ip info w :
  banned w !! ip = Some info ->
  returns (handle e) w (fun _ w' => banned w' !! ip = Some info).
Proof.
  intros Hb. destruct e as [opts req clk | now]; cbn [handle].
  - destruct (listed w (client_ip req)) eqn:Hreq.
    + eapply returns_mono; [eapply middleware_listed; exact Hreq |].
      cbn. intros [] w' (_ & Hb' & _). congruence.
    + eapply returns_mono; [apply middleware_unbanned; exact Hreq |].
      cbn. intros [] w' (_ & _ & _ & _ & _ & _ & Hcase).
      destruct (decide _) in Hcase.
      * destruct Hcase as (_ & Hb' & _). rewrite Hb'.
        rewrite lookup_insert_ne; [exact Hb |].
        intros Heq. rewrite Heq, (listed_own _ _ _ Hb) in Hreq. discriminate.
      * destruct Hcase as [_ Hb']. congruence.
  - apply returns_modify. exact Hb.
Qed.

Lemma run_keeps_ban es ip info : forall w,
  banned w !! ip = Some info ->
  returns (run es) w (fun _ w' => banned w' !! ip = Some info).
Proof.
  induction es as [| e es IH]; intros w Hb; cbn [run].
  - apply returns_ret. exact Hb.
  - apply returns_bind.
    eapply returns_mono; [apply handle_keeps_ban; exact Hb |].
    cbn. intros [] w1 Hb1. apply IH. exact Hb1.
Qed.

Lemma middleware_blocked_any_tracker opts req clk w info m :
  banned w !! client_ip req = Some info ->
  rateLimiterMiddleware opts req clk (set_ipTimestamps m w) =
  (inr tt, set_ipTimestamps m (rateLimiterMiddleware opts req clk w).2).
Proof.
  intros Hb. unfold rateLimiterMiddleware, appendLog, res_send, banned_read. run_prims.
  rewrite Hb. cbn.
  destruct (io_ok w _); cbn; [destruct (log_dir (fs w)); cbn |]; reflexivity.
Qed.

(** C4.  A client has a ban record.  After any run of the server (requests
    of any client at any instants, rounds of [cleanup]) a request of that
    client is answered 403 with the [bannedAt] and [reason] of that record,
    whatever the clock reads.  The pass leaves [banned] and [ipTimestamps]
    as they were, and it does not look at the tracker: with any other table
    in the place of [ipTimestamps] it does the same and hands that table
    back. *)
Theorem banned_stays_blocked ip info es opts req clk w :
  banned w !! ip = Some info ->
  client_ip req = ip ->
  returns (run es) w (fun _ w1 =>
    returns (rateLimiterMiddleware opts req clk) w1 (fun _ w2 =>
      outbox w2 = outbox w1 ++ [Send 403 (BlockedBody (bannedAt info) (reason info))] /\
      banned w2 = banned w1 /\
      ipTimestamps w2 = ipTimestamps w1) /\
    forall m,
      rateLimiterMiddleware opts req clk (set_ipTimestamps m w1) =
      (inr tt, set_ipTimestamps m (rateLimiterMiddleware opts req clk w1).2)).
Proof.
  intros Hb Hreq.
  eapply returns_mono; [apply run_keeps_ban; exact Hb |].
  cbn. intros [] w1 Hb1. rewrite <- Hreq in Hb1. split.
  - eapply returns_mono; [eapply middleware_blocked; exact Hb1 |].
    cbn. intros [] w2 (Ho & Hb2 & Ht2 & _). auto.
  - intros m. eapply middleware_blocked_any_tracker. exact Hb1.
Qed.

(** "A", banned at 300, asks again a year later, after other traffic and a
    round of the reaper. *)
Lemma banned_stays_blocked_witness :
  returns (run [Incoming opts_3_1000 (from "B") (at_ 400);
                Reaper 60000;
                Incoming (Options None None) (from "A") (at_ 70000)]) w_banned
    (fun _ w1 =>
      returns (rateLimiterMiddleware opts_3_1000 (from "A") (at_ 31536000000)) w1
        (fun _ w2 =>
          outbox w2 = outbox w1 ++ [Send 403 (BlockedBody 300 "exceeded_3_per_1000ms")] /\
          banned w2 = banned w1 /\
          ipTimestamps w2 = ipTimestamps w1) /\
      forall m,
        rateLimiterMiddleware opts_3_1000 (from "A") (at_ 31536000000)
          (set_ipTimestamps m w1) =
        (inr tt, set_ipTimestamps m
           (rateLimiterMiddleware opts_3_1000 (from "A") (at_ 31536000000) w1).2)).
Proof.
  apply (banned_stays_blocked "A"
           (BanRecord 300 "exceeded_3_per_1000ms" "rateLimiter")).
  - vm_compute. reflexivity.
  - reflexivity.
Defined.

(** C5.  Where the claim fails.  A request whose address is the name of a
    property of [Object.prototype] is not counted at all, although no ban
    record stands under that address: the tracker is left as it was, the
    log receives a [BLOCKED_REQ] line and no [REQ] line with a count, and
    the answer is 403, not [next()], however long the client has been
    silent. *)
Theorem builtin_name_is_not_counted opts req clk w :
  client_ip req ∈ Object_prototype_keys ->
  banned w !! client_ip req = None ->
  banned_proto w = None ->
  returns (rateLimiterMiddleware opts req clk) w (fun _ w' =>
    ipTimestamps w' = ipTimestamps w /\
    syscalls w' = syscalls w ++
      [SysAppendLog (LogBlockedReq (date_log clk) (client_ip req)
                                   (req_path req) (req_method req))] /\
    outbox w' = outbox w ++ [Send 403 BlockedBareBody]).
Proof.
  intros Hin Hown Hproto.
  eapply returns_mono; [apply middleware_listed, builtin_listed, Hin |].
  cbn. rewrite (builtin_read w _ Hin Hown Hproto). cbn.
  intros [] w' (Ho & _ & _ & Ht & _ & _ & _ & Hsys). auto.
Qed.

Lemma builtin_name_is_not_counted_witness :
  returns (rateLimiterMiddleware opts_3_1000 (from "constructor") (at_ 1201)) w0
    (fun _ w' =>
      ipTimestamps w' = ipTimestamps w0 /\
      syscalls w' = syscalls w0 ++
        [SysAppendLog (LogBlockedReq 1201 "constructor" "/" "GET")] /\
      outbox w' = outbox w0 ++ [Send 403 BlockedBareBody]).
Proof.
  apply (builtin_name_is_not_counted opts_3_1000 (from "constructor") (at_ 1201) w0).
  - vm_compute. repeat constructor.
  - reflexivity.
  - reflexivity.
Defined.

(** ** The admin handler *)

Lemma js_or_null k : truthy k = true -> js_or k None = k.
Proof. unfold js_or. by intros ->. Qed.

Lemma js_or_null_falsy k : truthy k = false -> truthy (js_or k None) = false.
Proof. unfold js_or. by intros ->. Qed.

Lemma truthy_Some s : s <> ""%string -> truthy (Some s) = true.
Proof.
  intros Hs. cbn. destruct (String.eqb s "") eqn:E; [| reflexivity].
  apply String.eqb_eq in E. contradiction.
Qed.

(** The handler once the key has been accepted and the body names an
    address: [unbanIp] decides between 200 and 404. *)
Lemma adminUnbanHandler_authorized req now w b ip :
  truthy (ADMIN_KEY w) = true ->
  provided_key req = ADMIN_KEY w ->
  body req = Some b -> body_ip b = Some ip -> ip <> ""%string ->
  returns (adminUnbanHandler req now) w (fun _ w' =>
    banned w' = delete ip (banned w) /\ banned_proto w' = banned_proto w /\
    ipTimestamps w' = ipTimestamps w /\
    if listed w ip then
      outbox w' = outbox w ++ [Send 200 (UnbannedBody ip)] /\
      syscalls w' = syscalls w ++
        [SysWriteBanned (TextJson (delete ip (banned w))); SysAppendLog (LogUnban now ip)]
    else
      outbox w' = outbox w ++ [Send 404 (NotFoundBody ip)] /\
      syscalls w' = syscalls w).
Proof.
  intros Hk Hprov Hbody Hip Hne. unfold adminUnbanHandler.
  apply returns_bind, returns_gets. fold (provided_key req).
  rewrite (js_or_null _ Hk), Hk, Hprov, Hk, Hbody, Hip.
  rewrite (bool_decide_eq_true_2 _ eq_refl), (truthy_Some _ Hne). cbn.
  apply returns_bind.
  destruct (listed w ip) eqn:Hb.
  - eapply returns_mono; [eapply unbanIp_present; exact Hb |].
    cbn. intros ok w1 (-> & Hb1 & Hp1 & Ht1 & Ho1 & _ & _ & _ & Hsys1 & _).
    apply returns_modify. cbn. repeat split; congruence.
  - exists false, w. split; [apply unbanIp_absent; exact Hb |].
    apply returns_modify. cbn. repeat split.
    symmetry. apply delete_id, unlisted_own, Hb.
Qed.

(** C6.  Where the claim fails.  The key is the right one and the body
    names an address that has no ban record but is the name of a property
    of [Object.prototype].  The handler answers 200 "unbanned", not 404
    "not found": [unbanIp] has found the inherited property, rewritten the
    ban file and logged an [UNBAN], and the ban map is what it was. *)
Theorem admin_unbans_builtin_name req now w b ip :
  truthy (ADMIN_KEY w) = true ->
  provided_key req = ADMIN_KEY w ->
  body req = Some b -> body_ip b = Some ip ->
  ip ∈ Object_prototype_keys ->
  banned w !! ip = None ->
  returns (adminUnbanHandler req now) w (fun _ w' =>
    outbox w' = outbox w ++ [Send 200 (UnbannedBody ip)] /\
    banned w' = banned w /\
    syscalls w' = syscalls w ++
      [SysWriteBanned (TextJson (banned w)); SysAppendLog (LogUnban now ip)]).
Proof.
  intros Hk Hprov Hbody Hip Hin Hown.
  eapply returns_mono.
  { apply (adminUnbanHandler_authorized req now w b ip); try assumption.
    apply builtin_not_empty, Hin. }
  cbn. rewrite (builtin_listed w ip Hin), (delete_id _ _ Hown).
  intros [] w' (Hb & _ & _ & Ho & Hsys). auto.
Qed.

Lemma admin_unbans_builtin_name_witness :
  returns (adminUnbanHandler (unban_request (Some "s3cret"%string) "toString") 350) w0
    (fun _ w' =>
      outbox w' = outbox w0 ++ [Send 200 (UnbannedBody "toString")] /\
      banned w' = banned w0 /\
      syscalls w' = syscalls w0 ++
        [SysWriteBanned (TextJson (banned w0)); SysAppendLog (LogUnban 350 "toString")]).
Proof.
  apply (admin_unbans_builtin_name (unban_request (Some "s3cret"%string) "toString")
           350 w0 (ReqBody None (Some "toString"%string)) "toString"%string).
  - reflexivity.
  - reflexivity.
  - reflexivity.
  - reflexivity.
  - vm_compute. repeat constructor.
  - reflexivity.
Defined.

(** C7.  Where the claim fails.  [unbanIp] on an address that has no ban
    record but is the name of a property of [Object.prototype] returns
    [true], not [false], and does not leave things alone: it hands the ban
    map to [writeFileSync] and appends an [UNBAN] line to the log.  The map
    itself is what it was, as there was nothing to delete. *)
Theorem unban_of_builtin_name now ip w :
  ip ∈ Object_prototype_keys ->
  banned w !! ip = None ->
  returns (unbanIp now ip) w (fun ok w' =>
    ok = true /\
    banned w' = banned w /\
    syscalls w' = syscalls w ++
      [SysWriteBanned (TextJson (banned w)); SysAppendLog (LogUnban now ip)]).
Proof.
  intros Hin Hown.
  eapply returns_mono; [apply unbanIp_present, builtin_listed, Hin |].
  cbn. rewrite (delete_id _ _ Hown).
  intros ok w' (Hok & Hb & _ & _ & _ & _ & _ & _ & Hsys & _). auto.
Qed.

Lemma unban_of_builtin_name_witness :
  returns (unbanIp 350 "toString") w0 (fun ok w' =>
    ok = true /\
    banned w' = banned w0 /\
    syscalls w' = syscalls w0 ++
      [SysWriteBanned (TextJson (banned w0)); SysAppendLog (LogUnban 350 "toString")]).
Proof.
  apply (unban_of_builtin_name 350 "toString" w0).
  - vm_compute. repeat constructor.
  - reflexivity.
Defined.

(** ** Start-up *)

Lemma loadBanned_returns w :
  read_outcome w <> inr TextJsonOther ->
  returns loadBanned w (fun _ w' =>
    ipTimestamps w' = ipTimestamps w /\ outbox w' = outbox w /\ fs w' = fs w /\
    banned_proto w' = None /\
    match read_outcome w with
    | inr (TextJson m) => banned w' = m /\ console w' = console w
    | inr TextEmpty => banned w' = ∅ /\ console w' = console w
    | inr _ => banned w' = ∅ /\ console w' = console w ++ load_failed SyntaxError
    | inl err => banned w' = ∅ /\ console w' = console w ++ load_failed err
    end).
Proof.
  unfold loadBanned, read_outcome, load_failed, JSON_parse. run_prims.
  destruct (io_ok w SysReadBanned); cbn;
    [destruct (banned_file (fs w)) as [[| m | |] |]; cbn |];
    intros Hother; try (exfalso; by apply Hother);
    eexists _, _; (split; [reflexivity |]); cbn; auto 10.
Qed.

(** Splits on every answer of the operating system that is not given by
    the hypothesis [H] on the calls of [ensureFiles]. *)
Ltac answer_calls H ok :=
  repeat (match goal with
          | |- context [if ok ?c then _ else _] =>
              first [ rewrite (H c) by (cbn; repeat constructor)
                    | destruct (ok c) eqn:? ]
          end; cbn).

Lemma module_init_returns w :
  (forall c, c ∈ ensure_calls (fs w) -> io_ok w c = true) ->
  start_text (fs w) <> TextJsonOther ->
  returns module_init w (fun _ w' =>
    banned_file (fs w') = Some (start_text (fs w)) /\
    data_dir (fs w') = true /\
    ipTimestamps w' = ipTimestamps w /\ outbox w' = outbox w /\
    banned_proto w' = None /\
    match start_read w with
    | inr (TextJson m) => banned w' = m /\ console w' = console w
    | inr TextEmpty => banned w' = ∅ /\ console w' = console w
    | inr _ => banned w' = ∅ /\ console w' = console w ++ load_failed SyntaxError
    | inl err => banned w' = ∅ /\ console w' = console w ++ load_failed err
    end).
Proof.
  destruct w as [b ts [dd ld bf rl] ok sc co key out pr dmg].
  unfold start_read, start_text. cbn. intros Hok Hother.
  unfold module_init, ensureFiles, loadBanned, when, fs_existsSync, fs_mkdirSync,
    fs_writeFileSync_log_empty, JSON_stringify, JSON_parse, load_failed.
  run_prims.
  destruct dd, ld, bf as [[| m | |] |], rl; cbn in Hok, Hother |- *;
    try (exfalso; by apply Hother);
    answer_calls Hok ok;
    eexists _, _; (split; [reflexivity |]); cbn; auto 10.
Qed.

Lemma module_init_reloads d ok key m :
  banned_file d = Some (TextJson m) ->
  data_dir d = true ->
  (forall c, ok c = true) ->
  returns module_init (boot d ok key) (fun _ w' =>
    banned w' = m /\ ipTimestamps w' = ∅ /\ console w' = [] /\
    banned_file (fs w') = Some (TextJson m)).
Proof.
  intros Hfile Hdir Hok.
  eapply returns_mono.
  { apply module_init_returns.
    - intros c _. apply Hok.
    - unfold start_text. cbn. by rewrite Hfile. }
  unfold start_read, start_text. cbn. rewrite Hok, Hfile. cbn.
  intros [] w' (Hf & _ & Ht & _ & _ & Hb & Hc). auto.
Qed.

(** With every call refused, a start without the ban file ends in an
    exception thrown out of [ensureFiles], which no handler encloses. *)
Lemma module_init_can_throw :
  throws module_init (boot (Disk true true None None) none_ok None)
    (fun e w' => e = EIO /\ console w' = []).
Proof. eexists _, _. split; [vm_compute; reflexivity |]. split; reflexivity. Qed.




(** ** The reaper *)

Lemma cleanup_returns now w :
  cleanup now w =
  (inr tt, set_ipTimestamps (omap (cleanup_entry now) (ipTimestamps w)) w).
Proof. reflexivity. Qed.

Lemma cleanup_entry_default now arr :
  cleanup_entry now arr =
  match filter (fun t => now - t ≤ 10000) arr with
  | [] => None
  | kept => Some kept
  end.
Proof.
  unfold cleanup_entry, recent_of. change WINDOW_MS with 10000.
  destruct (filter _ arr); reflexivity.
Qed.

(** C9.  [cleanup] filters every entry against the constant [WINDOW_MS] of
    the module, 10000 ms, and takes no option of any middleware.  So for a
    middleware built with a window above 10000 ms there is a state in which
    a stored instant still inside that window is deleted by a round of
    [cleanup], and the same request then stores a shorter entry (count 1
    instead of 2). *)
Theorem cleanup_ignores_configured_window opts :
  WINDOW_MS < window_of opts ->
  (forall now w ip,
     returns (cleanup now) w (fun _ w' =>
       banned w' = banned w /\
       ipTimestamps w' !! ip =
         match ipTimestamps w !! ip with
         | Some arr =>
             match filter (fun t => now - t ≤ 10000) arr with
             | [] => None
             | kept => Some kept
             end
         | None => None
         end)) /\
  (exists w ip t now,
     ipTimestamps w !! ip = Some [t] /\
     now - t ≤ window_of opts /\
     returns (rateLimiterMiddleware opts (from ip) (at_ now)) w (fun _ w' =>
       ipTimestamps w' !! ip = Some [t; now]) /\
     returns (cleanup now ;;; rateLimiterMiddleware opts (from ip) (at_ now)) w
       (fun _ w' => ipTimestamps w' !! ip = Some [now])).
Proof.
  intros HW. change WINDOW_MS with 10000 in HW. split.
  - intros now w ip. eexists tt, _.
    split; [apply cleanup_returns |]. cbn. split; [reflexivity |].
    rewrite lookup_omap. destruct (ipTimestamps w !! ip) as [arr |]; cbn;
      [apply cleanup_entry_default | reflexivity].
  - exists w_one, "C"%string, 0, (window_of opts).
    split; [reflexivity |]. split; [lia |]. split.
    + eapply returns_mono; [apply middleware_unbanned; reflexivity |].
      cbn. intros [] w' (Ht & _). rewrite Ht, lookup_insert_eq.
      f_equal. apply recent_of_all. repeat constructor; lia.
    + apply returns_bind. eexists tt, _.
      split; [apply cleanup_returns |].
      eapply returns_mono; [apply middleware_unbanned; reflexivity |].
      cbn. intros [] w' (Ht & _). rewrite Ht, lookup_insert_eq.
      assert (Hgone : cleanup_entry (window_of opts) [0] = None).
      { rewrite cleanup_entry_default. rewrite filter_cons_False by lia.
        reflexivity. }
      rewrite lookup_omap, lookup_singleton_eq. cbn [mbind option_bind].
      rewrite Hgone. f_equal. apply recent_of_now. lia.
Qed.

Lemma cleanup_ignores_configured_window_witness :
  (forall now w ip,
     returns (cleanup now) w (fun _ w' =>
       banned w' = banned w /\
       ipTimestamps w' !! ip =
         match ipTimestamps w !! ip with
         | Some arr =>
             match filter (fun t => now - t ≤ 10000) arr with
             | [] => None
             | kept => Some kept
             end
         | None => None
         end)) /\
  (exists w ip t now,
     ipTimestamps w !! ip = Some [t] /\
     now - t ≤ 60000 /\
     returns (rateLimiterMiddleware (Options None (Some 60000)) (from ip) (at_ now)) w
       (fun _ w' => ipTimestamps w' !! ip = Some [t; now]) /\
     returns (cleanup now ;;;
              rateLimiterMiddleware (Options None (Some 60000)) (from ip) (at_ now)) w
       (fun _ w' => ipTimestamps w' !! ip = Some [now])).
Proof.
  apply (cleanup_ignores_configured_window (Options None (Some 60000))).
  vm_compute. reflexivity.
Defined.

(** ** Requests without an address *)

Lemma js_or_str_falsy a b : truthy a = false -> js_or_str a b = b.
Proof.
  destruct a as [s |]; cbn; [| reflexivity].
  destruct (String.eqb s ""); [reflexivity | discriminate].
Qed.

Lemma anonymous_is_unknown req : anonymous req = true -> client_ip req = "unknown"%string.
Proof.
  unfold anonymous, client_ip, js_or. intros H.
  apply andb_true_iff in H as [H H3]. apply andb_true_iff in H as [H1 H2].
  apply negb_true_iff in H1, H2, H3.
  rewrite H1, H2. apply js_or_str_falsy. exact H3.
Qed.

(** ["unknown"] is the name of nothing that [banned] can inherit. *)
Lemma unknown_plain w : plain_key w "unknown" = true.
Proof. unfold plain_key, inherited_value. destruct (banned_proto w); reflexivity. Qed.

(** C10.  A request with no address is served under the key ["unknown"].
    Two such requests, whatever else they carry, meet in one tracker entry
    and one ban record: the first stores its instant under ["unknown"]; if
    it crosses the limit, the ban is recorded under ["unknown"] and the
    second is answered 403 from that record; otherwise the second is counted
    against the entry the first left. *)
Theorem anonymous_share_unknown r1 r2 opts clk1 clk2 w :
  anonymous r1 = true ->
  anonymous r2 = true ->
  banned w !! "unknown" = None ->
  let W := window_of opts in
  let first := recorded W (date_now clk1) (ipTimestamps w !! "unknown") in
  let why := exceeded_reason (max_of opts) W in
  client_ip r1 = "unknown"%string /\
  client_ip r2 = "unknown"%string /\
  returns (rateLimiterMiddleware opts r1 clk1) w (fun _ w1 =>
    ipTimestamps w1 !! "unknown" = Some first /\
    if decide (max_of opts < Z.of_nat (length first)) then
      banned w1 !! "unknown" = Some (BanRecord (date_ban clk1) why "rateLimiter") /\
      returns (rateLimiterMiddleware opts r2 clk2) w1 (fun _ w2 =>
        outbox w2 = outbox w1 ++ [Send 403 (BlockedBody (date_ban clk1) why)])
    else
      returns (rateLimiterMiddleware opts r2 clk2) w1 (fun _ w2 =>
        ipTimestamps w2 !! "unknown" = Some (recorded W (date_now clk2) (Some first)))).
Proof.
  intros H1 H2 Hb W first why.
  pose proof (anonymous_is_unknown r1 H1) as Hip1.
  pose proof (anonymous_is_unknown r2 H2) as Hip2.
  split; [exact Hip1 |]. split; [exact Hip2 |].
  assert (Hun : listed w "unknown" = false)
    by (apply plain_unlisted; [apply unknown_plain | exact Hb]).
  eapply returns_mono; [apply middleware_unbanned; rewrite Hip1; exact Hun |].
  cbn. rewrite Hip1. fold W first why. intros [] w1 (Ht1 & _ & _ & Hp1 & _ & _ & Hcase).
  assert (Hs1 : ipTimestamps w1 !! "unknown" = Some first)
    by (rewrite Ht1; apply lookup_insert_eq).
  split; [exact Hs1 |].
  destruct (decide _) as [Hgt | Hle].
  - destruct Hcase as (_ & Hb1 & _).
    assert (Hrec : banned w1 !! client_ip r2 =
                   Some (BanRecord (date_ban clk1) why "rateLimiter"))
      by (rewrite Hip2, Hb1; apply lookup_insert_eq).
    split; [rewrite <- Hip2; exact Hrec |].
    eapply returns_mono; [eapply middleware_blocked; exact Hrec |].
    cbn. intros [] w2 (Ho2 & _). exact Ho2.
  - destruct Hcase as [_ Hb1].
    eapply returns_mono;
      [apply middleware_unbanned; rewrite Hip2, (listed_same w w1) by assumption;
       exact Hun |].
    cbn. rewrite Hip2. fold W. intros [] w2 (Ht2 & _).
    rewrite Ht2, lookup_insert_eq, Hs1. reflexivity.
Qed.

Lemma anonymous_share_unknown_witness :
  client_ip nobody = "unknown"%string /\
  client_ip nobody_else = "unknown"%string /\
  returns (rateLimiterMiddleware opts_3_1000 nobody (at_ 0)) w0 (fun _ w1 =>
    ipTimestamps w1 !! "unknown" = Some [0] /\
    returns (rateLimiterMiddleware opts_3_1000 nobody_else (at_ 100)) w1 (fun _ w2 =>
      ipTimestamps w2 !! "unknown" = Some [0; 100])).
Proof.
  apply (anonymous_share_unknown nobody nobody_else opts_3_1000 (at_ 0) (at_ 100) w0);
    reflexivity.
Defined.

(** * Further properties of the module *)

(** Unfolds the operations of the module down to the primitives. *)
Ltac unfold_module :=
  unfold perform, handle, rateLimiterMiddleware, adminUnbanHandler, banIp, unbanIp,
    cleanup, saveBanned, appendLog, res_send, next, JSON_stringify,
    fs_appendFileSync_log, fs_writeFileSync_banned, console_error, sys, when,
    banned_assign, try_catch, bind, gets, modify, ret, throw;
  cbn.

(** Splits on every test the unfolded code makes. *)
Ltac split_cases :=
  repeat (match goal with
          | |- context [if js_truthy ?v then _ else _] => destruct (js_truthy v) eqn:?
          | |- context [if decide ?P then _ else _] => destruct (decide P)
          | |- context [if io_ok ?w ?c then _ else _] => destruct (io_ok w c) eqn:?
          | |- context [if log_dir ?d then _ else _] => destruct (log_dir d) eqn:?
          | |- context [if data_dir ?d then _ else _] => destruct (data_dir d) eqn:?
          | |- context [if negb ?b then _ else _] => destruct b eqn:?
          | |- context [if ?b || ?c then _ else _] => destruct b eqn:?
          | |- context [match body ?r with _ => _ end] => destruct (body r) eqn:?
          end; cbn).

Lemma log_grows_refl w : log_grows w w.
Proof. intros l Hl. exists []. by rewrite app_nil_r. Qed.

Lemma log_grows_trans w1 w2 w3 :
  log_grows w1 w2 -> log_grows w2 w3 -> log_grows w1 w3.
Proof.
  intros H12 H23 l Hl. destruct (H12 l Hl) as [l1 H1].
  destruct (H23 _ H1) as [l2 H2]. exists (l1 ++ l2). by rewrite app_assoc.
Qed.

Lemma perform_log_grows a w : log_grows w (perform a w).2.
Proof.
  intros l Hl. destruct a as [[opts req clk | now] | now ip why | now ip | req now];
    unfold_module; split_cases; cbn; rewrite ?Hl; cbn;
    first [ by (exists []; rewrite app_nil_r)
          | by (eexists [_]; reflexivity)
          | by (eexists [_; _]; rewrite <- ?app_assoc; reflexivity) ].
Qed.

(** X1.  The request log is append-only: whatever requests, reaper rounds,
    calls of [banIp] and [unbanIp] and admin requests follow one another,
    and whatever the file system answers, the log that was on disk is still
    there, unchanged, at the head of the log afterwards. *)
Theorem log_is_append_only acts w l :
  request_log (fs w) = Some l ->
  exists l', request_log (fs (after_all acts w)) = Some (l ++ l').
Proof.
  revert w l. induction acts as [| a acts IH]; intros w l Hl; cbn [after_all].
  - exists []. by rewrite app_nil_r.
  - destruct (perform_log_grows a w l Hl) as [l1 H1].
    destruct (IH _ _ H1) as [l2 H2]. exists (l1 ++ l2). by rewrite app_assoc.
Qed.

Lemma log_is_append_only_witness :
  exists l',
    request_log (fs (after_all
      [Serve (Incoming opts_3_1000 (from "A") (at_ 400));
       AdminUnban (unban_request (Some "s3cret"%string) "A") 450;
       Serve (Reaper 60000);
       CallBan 70000 "B" None] w_banned)) =
    Some ([LogReq 0 "A" "GET" "/" 1; LogReq 100 "A" "GET" "/" 2;
           LogReq 200 "A" "GET" "/" 3; LogReq 300 "A" "GET" "/" 4;
           LogBan 300 "A" "exceeded_3_per_1000ms"] ++ l').
Proof.
  apply (log_is_append_only _ w_banned). vm_compute. reflexivity.
Defined.

(** X2.  A request touches the ban record and the tracker entry of its own
    client only: under every other key, [banned] and [ipTimestamps] read
    after the pass what they read before. *)
Theorem other_clients_untouched opts req clk k w :
  client_ip req <> k ->
  let w' := (rateLimiterMiddleware opts req clk w).2 in
  banned w' !! k = banned w !! k /\ ipTimestamps w' !! k = ipTimestamps w !! k.
Proof.
  intros Hk. cbn zeta.
  destruct (listed w (client_ip req)) eqn:Hb.
  - destruct (middleware_listed opts req clk w Hb)
      as ([] & w' & Heq & _ & Hb' & _ & Ht' & _).
    rewrite Heq. cbn. by rewrite Hb', Ht'.
  - destruct (middleware_unbanned opts req clk w Hb)
      as ([] & w' & Heq & Ht' & _ & _ & _ & _ & _ & Hcase).
    rewrite Heq. cbn. rewrite Ht', lookup_insert_ne by exact Hk.
    split; [| reflexivity].
    destruct (decide _) in Hcase.
    + destruct Hcase as (_ & Hb' & _). rewrite Hb'. by rewrite lookup_insert_ne.
    + destruct Hcase as [_ Hb']. by rewrite Hb'.
Qed.

Lemma other_clients_untouched_witness :
  let w' := (rateLimiterMiddleware opts_3_1000 (from "B") (at_ 400) w_banned).2 in
  banned w' !! "A" = banned w_banned !! "A" /\
  ipTimestamps w' !! "A" = ipTimestamps w_banned !! "A".
Proof.
  apply (other_clients_untouched opts_3_1000 (from "B") (at_ 400) "A" w_banned).
  vm_compute. discriminate.
Defined.

(** X3.  Every pass through the middleware answers exactly once: it adds
    one entry to what was sent, either [next()] or one response.  It is
    [next()] exactly when, once the pass is over, [banned[ip]] finds
    nothing under the address of the client. *)
Theorem one_reply_per_request opts req clk w :
  returns (rateLimiterMiddleware opts req clk) w (fun _ w' =>
    exists r, outbox w' = outbox w ++ [r] /\
              (r = Next <-> listed w' (client_ip req) = false)).
Proof.
  destruct (listed w (client_ip req)) eqn:Hb.
  - eapply returns_mono; [eapply middleware_listed; exact Hb |].
    cbn. intros [] w' (Ho & Hb' & Hp' & _). eexists. split; [exact Ho |].
    rewrite (listed_same w w') by assumption. rewrite Hb. split; discriminate.
  - eapply returns_mono; [apply middleware_unbanned; exact Hb |].
    cbn. intros [] w' (_ & _ & _ & Hp' & _ & _ & Hcase).
    destruct (decide _) in Hcase.
    + destruct Hcase as (Ho & Hb' & _). eexists. split; [exact Ho |].
      rewrite (listed_own w' _ (BanRecord (date_ban clk)
                 (exceeded_reason (max_of opts) (window_of opts)) "rateLimiter"))
        by (rewrite Hb'; apply lookup_insert_eq).
      split; discriminate.
    + destruct Hcase as [Ho Hb']. eexists. split; [exact Ho |].
      rewrite (listed_same w w') by assumption. rewrite Hb. split; reflexivity.
Qed.

(** ** More on the reaper *)

Lemma recent_of_later W now now' arr :
  now ≤ now' ->
  recent_of W now' (recent_of W now arr) = recent_of W now' arr.
Proof.
  intros Hle. unfold recent_of. rewrite list_filter_filter.
  apply list_filter_iff. intros t. lia.
Qed.

Lemma recent_of_wider W W' now now' arr :
  W ≤ W' -> now' ≤ now ->
  recent_of W now (recent_of W' now' arr) = recent_of W now arr.
Proof.
  intros HW Hle. unfold recent_of. rewrite list_filter_filter.
  apply list_filter_iff. intros t. lia.
Qed.

Lemma cleanup_entry_later now now' arr :
  now ≤ now' ->
  cleanup_entry now arr ≫= cleanup_entry now' = cleanup_entry now' arr.
Proof.
  intros Hle. unfold cleanup_entry. cbn zeta.
  destruct (decide (length (recent_of WINDOW_MS now arr) = 0%nat)) as [Hnil | Hne];
    cbn [mbind option_bind option_ret].
  - apply length_zero_iff_nil in Hnil.
    rewrite <- (recent_of_later _ now now') by exact Hle.
    rewrite Hnil. reflexivity.
  - rewrite recent_of_later by exact Hle. reflexivity.
Qed.

(** X4.  A round of [cleanup] followed by a later one leaves exactly the
    state the later one alone would leave; in particular a second round at
    the same instant changes nothing. *)
Theorem cleanup_absorbs_earlier now now' w :
  now ≤ now' ->
  (cleanup now ;;; cleanup now') w = cleanup now' w.
Proof.
  intros Hle. unfold cleanup, bind, modify. cbn.
  f_equal. unfold set_ipTimestamps. cbn. f_equal.
  apply map_eq. intros ip. rewrite !lookup_omap.
  destruct (ipTimestamps w !! ip) as [arr |]; cbn; [| reflexivity].
  apply cleanup_entry_later. exact Hle.
Qed.

Lemma cleanup_absorbs_earlier_witness :
  (cleanup 15000 ;;; cleanup 20000) w_mixed = cleanup 20000 w_mixed.
Proof. apply cleanup_absorbs_earlier. vm_compute. discriminate. Defined.

(** X5.  After a round of [cleanup] at [now] every entry of the tracker is
    a non-empty array of instants no older than 10000 ms, taken from the
    entry that was there; the number of tracked clients has not grown; the
    ban map, the files, the replies and the console are as before. *)
Theorem cleanup_leaves_tracker_tidy now w :
  let w' := (cleanup now w).2 in
  (forall ip arr, ipTimestamps w' !! ip = Some arr ->
     arr <> [] /\ Forall (fun t => now - t ≤ 10000) arr /\
     exists old, ipTimestamps w !! ip = Some old /\ arr ⊆ old) /\
  (size (ipTimestamps w') <= size (ipTimestamps w))%nat /\
  banned w' = banned w /\ fs w' = fs w /\ outbox w' = outbox w /\
  console w' = console w /\ syscalls w' = syscalls w.
Proof.
  cbn. split; [| split; [| repeat split]].
  - intros ip arr Hlook. rewrite lookup_omap in Hlook.
    destruct (ipTimestamps w !! ip) as [old |] eqn:Hold; cbn in Hlook; [| discriminate].
    unfold cleanup_entry in Hlook. destruct (decide _) as [| Hne] in Hlook; [discriminate |].
    injection Hlook as <-. split; [| split].
    + intros Hnil. apply Hne. by rewrite Hnil.
    + apply Forall_forall. intros t Ht.
      apply (list_elem_of_filter (fun t => now - t ≤ WINDOW_MS)) in Ht. apply Ht.
    + exists old. split; [reflexivity |]. intros t Ht.
      apply (list_elem_of_filter (fun t => now - t ≤ WINDOW_MS)) in Ht. apply Ht.
  - rewrite <- !size_dom. apply subseteq_size, dom_omap_subseteq.
Qed.

Lemma recorded_after_cleanup W now now0 stored :
  W ≤ WINDOW_MS -> now0 ≤ now ->
  recorded W now (stored ≫= cleanup_entry now0) = recorded W now stored.
Proof.
  intros HW Hle. unfold recorded. rewrite !recent_of_app. f_equal.
  destruct stored as [arr |]; cbn [mbind option_bind]; [| reflexivity].
  unfold cleanup_entry. cbn zeta.
  destruct (decide (length (recent_of WINDOW_MS now0 arr) = 0%nat)) as [Hnil | Hne];
    cbn [from_option id].
  - apply length_zero_iff_nil in Hnil.
    rewrite <- (recent_of_wider W WINDOW_MS now now0 arr) by assumption.
    rewrite Hnil. reflexivity.
  - apply recent_of_wider; assumption.
Qed.

(** X6.  For a middleware whose window is at most the 10000 ms of the
    reaper, and a clock that does not run backwards, a round of [cleanup]
    before a request changes nothing of what the request does: the same
    reply, the same ban map and, for a client under whose address
    [banned[ip]] finds nothing, the same entry stored. *)
Theorem cleanup_is_invisible opts req clk now0 w :
  window_of opts ≤ WINDOW_MS ->
  now0 ≤ date_now clk ->
  let wa := (rateLimiterMiddleware opts req clk w).2 in
  let wb := ((cleanup now0 ;;; rateLimiterMiddleware opts req clk) w).2 in
  outbox wb = outbox wa /\ banned wb = banned wa /\
  (listed w (client_ip req) = false ->
   ipTimestamps wb !! client_ip req = ipTimestamps wa !! client_ip req).
Proof.
  intros HW Hclk. cbn zeta.
  set (wc := set_ipTimestamps (omap (cleanup_entry now0) (ipTimestamps w)) w).
  assert (Hseq : (cleanup now0 ;;; rateLimiterMiddleware opts req clk) w =
                 rateLimiterMiddleware opts req clk wc) by reflexivity.
  rewrite Hseq. clear Hseq.
  assert (Hl : listed wc (client_ip req) = listed w (client_ip req)) by reflexivity.
  assert (Hr : banned_read wc (client_ip req) = banned_read w (client_ip req))
    by reflexivity.
  destruct (listed w (client_ip req)) eqn:Hb.
  - destruct (middleware_listed opts req clk w Hb)
      as ([] & wa & Ha & Hoa & Hba & _).
    destruct (middleware_listed opts req clk wc Hl)
      as ([] & wb & Hbq & Hob & Hbb & _).
    rewrite Ha, Hbq. cbn. rewrite Hoa, Hob, Hba, Hbb, Hr.
    split; [reflexivity |]. split; [reflexivity |]. discriminate.
  - destruct (middleware_unbanned opts req clk w Hb)
      as ([] & wa & Ha & Hta & _ & _ & _ & _ & _ & Hca).
    destruct (middleware_unbanned opts req clk wc Hl)
      as ([] & wb & Hbq & Htb & _ & _ & _ & _ & _ & Hcb).
    rewrite Ha, Hbq. cbn.
    assert (Hrec : recorded (window_of opts) (date_now clk)
                     (ipTimestamps wc !! client_ip req) =
                   recorded (window_of opts) (date_now clk)
                     (ipTimestamps w !! client_ip req)).
    { unfold wc. cbn. rewrite lookup_omap.
      apply recorded_after_cleanup; assumption. }
    rewrite Hrec in Htb, Hcb.
    assert (Hentry : ipTimestamps wb !! client_ip req =
                     ipTimestamps wa !! client_ip req)
      by (rewrite Hta, Htb, !lookup_insert_eq; reflexivity).
    destruct (decide _) in Hca, Hcb.
    + destruct Hca as (Hoa & Hba & _). destruct Hcb as (Hob & Hbb & _).
      rewrite Hoa, Hob, Hba, Hbb. auto.
    + destruct Hca as [Hoa Hba]. destruct Hcb as [Hob Hbb].
      rewrite Hoa, Hob, Hba, Hbb. auto.
Qed.

Lemma cleanup_is_invisible_witness :
  let wa := (middleware (from "mid") (at_ 20500) w_mixed).2 in
  let wb := ((cleanup 20000 ;;; middleware (from "mid") (at_ 20500)) w_mixed).2 in
  outbox wb = outbox wa /\ banned wb = banned wa /\
  (listed w_mixed "mid" = false ->
   ipTimestamps wb !! "mid" = ipTimestamps wa !! "mid").
Proof.
  apply (cleanup_is_invisible (Options None None) (from "mid") (at_ 20500) 20000 w_mixed).
  - vm_compute. discriminate.
  - vm_compute. discriminate.
Defined.

(** ** Bans on disk *)

Lemma perform_keeps_env a w :
  let w' := (perform a w).2 in
  data_dir (fs w') = data_dir (fs w) /\ log_dir (fs w') = log_dir (fs w) /\
  io_ok w' = io_ok w /\ ADMIN_KEY w' = ADMIN_KEY w.
Proof.
  destruct a as [[opts req clk | now] | now ip why | now ip | req now];
    unfold_module; split_cases; cbn;
    repeat split; congruence.
Qed.

Lemma banIp_keeps_env now ip why w w1 :
  banIp now ip why w = (inr tt, w1) ->
  data_dir (fs w1) = data_dir (fs w) /\ io_ok w1 = io_ok w.
Proof.
  intros Heq. pose proof (perform_keeps_env (CallBan now ip why) w) as Henv.
  cbn [perform] in Henv. rewrite Heq in Henv. cbn in Henv. tauto.
Qed.

(** X7.  Banning an address that had no record and unbanning it again
    gives back the ban map as it was, [unbanIp] returning [true]; when the
    disk obeys, the ban file ends as the rendering of that map. *)
Theorem ban_then_unban now now' ip why w :
  banned w !! ip = None ->
  returns (banIp now ip why ;;; unbanIp now' ip) w (fun ok w' =>
    ok = true /\ banned w' = banned w /\ (disk_obeys w -> in_sync w')).
Proof.
  intros Hb.
  destruct (banIp_returns now ip why w) as ([] & w1 & Heq & Hb1 & Hp1 & _).
  destruct (banIp_keeps_env _ _ _ _ _ Heq) as [Hdd1 Hio1].
  eapply returns_after; [exact Heq |].
  assert (Hl1 : listed w1 ip = true).
  { rewrite <- (banned_assign_listed ip
       (BanRecord now (default "rate_limit_exceeded"%string why) "rateLimiter") w).
    apply listed_same; assumption. }
  eapply returns_mono; [eapply unbanIp_present; exact Hl1 |].
  cbn. intros ok w2 (Hok & Hb2 & _ & _ & _ & _ & _ & _ & _ & Hfile).
  assert (Hback : banned w2 = banned w).
  { rewrite Hb2, Hb1. unfold banned_assign. cbn. destruct (bool_decide _).
    - apply delete_id. exact Hb.
    - apply delete_insert_id. exact Hb. }
  split; [exact Hok |]. split; [exact Hback |].
  intros [Hdir Hall]. unfold in_sync. rewrite Hfile.
  rewrite write_leaves_lands; [by rewrite Hb2 |].
  unfold write_lands. by rewrite Hio1, Hall, Hdd1, Hdir.
Qed.

Lemma ban_then_unban_witness :
  returns (banIp 1000 "Z" None ;;; unbanIp 2000 "Z") w_banned (fun ok w' =>
    ok = true /\ banned w' = banned w_banned /\ (disk_obeys w_banned -> in_sync w')).
Proof. apply ban_then_unban. vm_compute. reflexivity. Defined.

(** X8.  A ban whose write reached the disk is there after a restart: for
    an address other than ["__proto__"], the module initialised on the disk
    [banIp] left, with calls that go through, starts with the same ban map,
    the new record in it; the tracker starts empty. *)
Theorem ban_survives_restart now ip why w ok key :
  let r := BanRecord now (default "rate_limit_exceeded"%string why) "rateLimiter" in
  ip <> "__proto__"%string ->
  write_lands (TextJson (<[ip := r]> (banned w))) w = true ->
  (forall c, ok c = true) ->
  returns (banIp now ip why) w (fun _ w1 =>
    returns module_init (boot (fs w1) ok key) (fun _ w2 =>
      banned w2 = banned w1 /\ banned w2 !! ip = Some r /\ ipTimestamps w2 = ∅)).
Proof.
  intros r Hip Hlands Hok.
  destruct (banIp_returns now ip why w)
    as ([] & w1 & Heq & Hb1 & _ & _ & _ & _ & _ & _ & _ & Hfile & _).
  destruct (banIp_keeps_env _ _ _ _ _ Heq) as [Hdd1 _].
  exists tt, w1. split; [exact Heq |].
  fold r in Hb1, Hfile. rewrite banned_assign_own in Hb1, Hfile by (left; exact Hip).
  cbn in Hb1, Hfile. rewrite (write_leaves_lands _ _ Hlands) in Hfile.
  apply andb_true_iff in Hlands as [_ Hdir].
  eapply returns_mono.
  { apply (module_init_reloads (fs w1) ok key _ Hfile); [congruence | exact Hok]. }
  cbn. intros [] w2 (Hb2 & Ht2 & _). rewrite Hb2, Hb1.
  split; [reflexivity |]. split; [apply lookup_insert_eq | exact Ht2].
Qed.

Lemma ban_survives_restart_witness :
  returns (banIp 1000 "Z" None) w_banned (fun _ w1 =>
    returns module_init (boot (fs w1) all_ok None) (fun _ w2 =>
      banned w2 = banned w1 /\
      banned w2 !! "Z" = Some (BanRecord 1000 "rate_limit_exceeded" "rateLimiter") /\
      ipTimestamps w2 = ∅)).
Proof.
  apply (ban_survives_restart 1000 "Z" None w_banned all_ok None);
    [discriminate | reflexivity | reflexivity].
Defined.

(** X9.  A ban whose write was refused is in memory only.  The address is
    blocked from then on, but not after a restart on the disk the call
    left: if the refused write left the file alone, the module starts with
    the map the file held before; if the write had emptied the file, or cut
    it short, before it failed, the module starts with the empty map, and
    the bans the file held are lost with the new one. *)
Theorem unsaved_ban_is_lost now ip why w ok key m0 :
  let r := BanRecord now (default "rate_limit_exceeded"%string why) "rateLimiter" in
  let t := TextJson (banned (banned_assign ip r w)) in
  write_lands t w = false ->
  banned_file (fs w) = Some (TextJson m0) ->
  data_dir (fs w) = true ->
  (forall c, ok c = true) ->
  returns (banIp now ip why) w (fun _ w1 =>
    listed w1 ip = true /\
    returns module_init (boot (fs w1) ok key) (fun _ w2 =>
      banned w2 = match io_damage w (SysWriteBanned t) with
                  | Untouched => m0
                  | Emptied | Cut => ∅
                  end)).
Proof.
  intros r t Hrefused Hfile0 Hdir Hok.
  destruct (banIp_returns now ip why w)
    as ([] & w1 & Heq & Hb1 & Hp1 & _ & _ & _ & _ & _ & _ & Hfile & _).
  destruct (banIp_keeps_env _ _ _ _ _ Heq) as [Hdd1 _].
  exists tt, w1. split; [exact Heq |].
  fold r t in Hb1, Hp1, Hfile.
  split.
  { rewrite <- (banned_assign_listed ip r w). apply listed_same; assumption. }
  unfold write_leaves in Hfile. rewrite Hrefused in Hfile.
  unfold write_lands in Hrefused. rewrite Hdir, andb_true_r in Hrefused.
  rewrite Hrefused, Hdir, Hfile0 in Hfile. cbn in Hfile.
  eapply returns_mono.
  { apply (module_init_returns (boot (fs w1) ok key)).
    - intros c _. apply Hok.
    - unfold start_text. cbn. rewrite Hfile.
      destruct (io_damage w _); discriminate. }
  unfold start_read, start_text. cbn. rewrite Hok, Hfile.
  intros [] w2 (_ & _ & _ & _ & _ & Hcase).
  destruct (io_damage w _); cbn in Hcase; apply Hcase.
Qed.

Lemma unsaved_ban_is_lost_witness :
  returns (banIp 1000 "Z" None) w_ban_refused (fun _ w1 =>
    listed w1 "Z" = true /\
    returns module_init (boot (fs w1) all_ok None) (fun _ w2 => banned w2 = ∅)) /\
  returns (banIp 1000 "Z" None) w_ban_emptied (fun _ w1 =>
    listed w1 "Z" = true /\
    returns module_init (boot (fs w1) all_ok None) (fun _ w2 => banned w2 = ∅)).
Proof.
  split.
  - apply (unsaved_ban_is_lost 1000 "Z" None w_ban_refused all_ok None ∅); reflexivity.
  - apply (unsaved_ban_is_lost 1000 "Z" None w_ban_emptied all_ok None
             {["B"%string := BanRecord 5 "manual" "rateLimiter"]}); reflexivity.
Defined.

Lemma perform_keeps_sync a w :
  disk_obeys w -> in_sync w -> in_sync (perform a w).2.
Proof.
  intros [Hdir Hok] Hsync. unfold in_sync in *.
  destruct a as [[opts req clk | now] | now ip why | now ip | req now];
    unfold_module; split_cases; cbn;
    try (match goal with H : io_ok _ _ = false |- _ => rewrite Hok in H; discriminate end);
    try congruence; try reflexivity.
Qed.

Lemma after_all_keeps_sync acts : forall w,
  disk_obeys w -> in_sync w ->
  in_sync (after_all acts w) /\ disk_obeys (after_all acts w).
Proof.
  induction acts as [| a acts IH]; intros w Hdisk Hsync; cbn [after_all].
  - split; assumption.
  - apply IH.
    + destruct Hdisk as [Hdir Hok].
      destruct (perform_keeps_env a w) as (Hdd & _ & Hio & _).
      split; [congruence |]. intros c. rewrite Hio. apply Hok.
    + apply perform_keeps_sync; assumption.
Qed.

(** X10.  As long as the [data] directory is there and no call is refused,
    the ban file mirrors the ban map: if it holds the rendering of [banned]
    before a sequence of requests, reaper rounds, bans, unbans and admin
    requests, it holds the rendering of [banned] after it, and a module
    started afresh on that disk begins with exactly that map. *)
Theorem ban_file_mirrors_memory acts w ok key :
  disk_obeys w -> in_sync w -> (forall c, ok c = true) ->
  let w' := after_all acts w in
  in_sync w' /\ disk_obeys w' /\
  returns module_init (boot (fs w') ok key) (fun _ w2 => banned w2 = banned w').
Proof.
  intros Hdisk Hsync Hok. cbn zeta.
  destruct (after_all_keeps_sync acts w Hdisk Hsync) as [Hsync' Hdisk'].
  split; [exact Hsync' |]. split; [exact Hdisk' |].
  eapply returns_mono.
  { apply (module_init_reloads _ ok key _ Hsync'); [apply Hdisk' | exact Hok]. }
  cbn. intros [] w2 (Hb2 & _). exact Hb2.
Qed.

Lemma ban_file_mirrors_memory_witness :
  let w' := after_all
      [Serve (Incoming opts_3_1000 (from "B") (at_ 400));
       CallBan 500 "C" (Some "manual"%string);
       AdminUnban (unban_request (Some "s3cret"%string) "A") 600;
       Serve (Reaper 60000)] w_banned in
  in_sync w' /\ disk_obeys w' /\
  returns module_init (boot (fs w') all_ok None) (fun _ w2 => banned w2 = banned w').
Proof.
  apply ban_file_mirrors_memory.
  - split; [reflexivity | intros c; reflexivity].
  - vm_compute. reflexivity.
  - reflexivity.
Defined.

(** ** Counters *)

(** X11.  [getStats] counts the own entries of [banned].  After [banIp] the
    count is one more when the address had no record, and the same when it
    had one or when the address is ["__proto__"], whose record is not
    stored as an entry.  After [unbanIp], which returns what [banned[ip]]
    found, the count is one less when the address had a record and the same
    when it had none.  Neither call changes the count of tracked clients. *)
Theorem stats_follow_bans now ip why w :
  returns (banIp now ip why ;;; getStats) w (fun s _ =>
    s.1 = size (ipTimestamps w) /\
    s.2 = match banned w !! ip with
          | Some _ => size (banned w)
          | None => if decide (ip = "__proto__"%string) then size (banned w)
                    else S (size (banned w))
          end) /\
  returns (ok <- unbanIp now ip ;; s <- getStats ;; ret (ok, s)) w (fun r _ =>
    r.1 = listed w ip /\
    r.2.1 = size (ipTimestamps w) /\
    size (banned w) = (r.2.2 + match banned w !! ip with
                               | Some _ => 1
                               | None => 0
                               end)%nat).
Proof.
  split.
  - apply returns_bind.
    eapply returns_mono; [apply banIp_returns |].
    cbn. intros [] w1 (Hb1 & _ & Ht1 & _). apply returns_gets. cbn.
    rewrite Hb1, Ht1. split; [reflexivity |].
    unfold banned_assign. cbn. destruct (bool_decide _) eqn:Hd.
    + apply bool_decide_eq_true_1 in Hd as [-> Hn]. rewrite Hn. reflexivity.
    + apply bool_decide_eq_false_1 in Hd. rewrite map_size_insert.
      destruct (banned w !! ip) eqn:Hb; [reflexivity |].
      destruct (decide _) as [-> |]; [| reflexivity].
      exfalso. apply Hd. auto.
  - apply returns_bind.
    destruct (listed w ip) eqn:Hl.
    + eapply returns_mono; [eapply unbanIp_present; exact Hl |].
      cbn. intros ok w1 (-> & Hb1 & _ & Ht1 & _).
      apply returns_bind, returns_gets, returns_ret. cbn.
      rewrite Hb1, Ht1. split; [reflexivity |]. split; [reflexivity |].
      destruct (banned w !! ip) as [r |] eqn:Hb.
      * rewrite <- (insert_delete_id (banned w) ip r Hb) at 1.
        rewrite map_size_insert_None by apply lookup_delete_eq. lia.
      * rewrite (delete_id _ _ Hb). lia.
    + exists false, w. split; [apply unbanIp_absent; exact Hl |].
      apply returns_bind, returns_gets, returns_ret. cbn.
      rewrite (unlisted_own _ _ Hl). repeat split. lia.
Qed.

(** ** The admin route *)

(** X12.  With the right key, [adminUnbanHandler] still needs an address:
    a body without [ip], or with an empty one, is answered 400 and nothing
    else changes; a request with no body at all makes the handler throw a
    [TypeError] before anything is sent or changed. *)
Theorem admin_unban_needs_an_address req now w :
  truthy (ADMIN_KEY w) = true ->
  provided_key req = ADMIN_KEY w ->
  match body req with
  | None => adminUnbanHandler req now w = (inl TypeError, w)
  | Some b =>
      truthy (body_ip b) = false ->
      adminUnbanHandler req now w =
      (inr tt, set_outbox (outbox w ++ [Send 400 ProvideIpBody]) w)
  end.
Proof.
  intros Hk Hprov. unfold adminUnbanHandler, bind, gets. cbn.
  fold (provided_key req).
  rewrite (js_or_null _ Hk), Hk, Hprov, Hk, (bool_decide_eq_true_2 _ eq_refl). cbn.
  destruct (body req) as [b |]; [| reflexivity].
  intros Hip. rewrite Hip. reflexivity.
Qed.

Lemma admin_unban_needs_an_address_witness :
  adminUnbanHandler key_only_request 350 w_banned = (inl TypeError, w_banned) /\
  adminUnbanHandler no_address_request 350 w_banned =
    (inr tt, set_outbox (outbox w_banned ++ [Send 400 ProvideIpBody]) w_banned).
Proof.
  split.
  - apply (admin_unban_needs_an_address key_only_request 350 w_banned); reflexivity.
  - apply (admin_unban_needs_an_address no_address_request 350 w_banned); reflexivity.
Defined.

(** X19.  The key of the [X-Admin-Key] header comes first: when the header
    carries a non-empty key that is not the configured one, the answer is
    401 and nothing else changes, even if the body or the query string
    carries the right key. *)
Theorem header_key_comes_first req now w :
  truthy (ADMIN_KEY w) = true ->
  truthy (hdr_x_admin_key req) = true ->
  hdr_x_admin_key req <> ADMIN_KEY w ->
  adminUnbanHandler req now w =
  (inr tt, set_outbox (outbox w ++ [Send 401 UnauthorizedBody]) w).
Proof.
  intros Hk Hhdr Hne.
  assert (Hp : provided_key req = hdr_x_admin_key req).
  { unfold provided_key. unfold js_or at 2. rewrite Hhdr.
    unfold js_or. by rewrite Hhdr. }
  unfold adminUnbanHandler, bind, gets. cbn. fold (provided_key req).
  rewrite (js_or_null _ Hk), Hk, Hp, Hhdr. cbn.
  rewrite (bool_decide_eq_false_2 _ Hne). reflexivity.
Qed.

Lemma header_key_comes_first_witness :
  adminUnbanHandler two_keys_request 350 w_banned =
  (inr tt, set_outbox (outbox w_banned ++ [Send 401 UnauthorizedBody]) w_banned).
Proof.
  apply (header_key_comes_first two_keys_request 350 w_banned).
  - reflexivity.
  - reflexivity.
  - vm_compute. discriminate.
Defined.

(** X22.  The ways out of the admin handler.  With no [ADMIN_KEY] in the
    environment (unset or empty) the answer is 500 "not configured",
    whatever the request carries.  With a key configured and a request that
    carries no key or another one, the answer is 401.  With the right key
    and an address in the body, the answer follows what [banned[ip]] finds:
    200 "unbanned" when it finds something, the own entry under the address
    being deleted if there is one, and 404 "not found" when it finds
    nothing. *)
Theorem admin_unban_outcomes req now w :
  (truthy (ADMIN_KEY w) = false ->
     adminUnbanHandler req now w =
     (inr tt, set_outbox (outbox w ++ [Send 500 AdminKeyMissingBody]) w)) /\
  (truthy (ADMIN_KEY w) = true ->
   truthy (provided_key req) = false \/ provided_key req <> ADMIN_KEY w ->
     adminUnbanHandler req now w =
     (inr tt, set_outbox (outbox w ++ [Send 401 UnauthorizedBody]) w)) /\
  (forall b ip,
     truthy (ADMIN_KEY w) = true ->
     provided_key req = ADMIN_KEY w ->
     body req = Some b -> body_ip b = Some ip -> ip <> ""%string ->
     returns (adminUnbanHandler req now) w (fun _ w' =>
       if listed w ip then
         outbox w' = outbox w ++ [Send 200 (UnbannedBody ip)] /\
         banned w' = delete ip (banned w)
       else
         outbox w' = outbox w ++ [Send 404 (NotFoundBody ip)] /\
         banned w' = banned w)).
Proof.
  split; [| split].
  - intros Hk. unfold adminUnbanHandler, bind, gets. cbn.
    rewrite (js_or_null_falsy _ Hk). reflexivity.
  - intros Hk Hbad. unfold adminUnbanHandler, bind, gets. cbn.
    fold (provided_key req). rewrite (js_or_null _ Hk), Hk. cbn.
    destruct Hbad as [Hnone | Hne].
    + rewrite Hnone. reflexivity.
    + rewrite (bool_decide_eq_false_2 _ Hne), orb_true_r. reflexivity.
  - intros b ip Hk Hprov Hbody Hip Hne.
    eapply returns_mono;
      [apply (adminUnbanHandler_authorized req now w b ip); assumption |].
    cbn. intros [] w' (Hb & _ & _ & Hcase).
    destruct (listed w ip) eqn:Hl.
    + destruct Hcase as [Ho _]. auto.
    + destruct Hcase as [Ho _]. split; [exact Ho |].
      rewrite Hb. apply delete_id, unlisted_own, Hl.
Qed.

Lemma admin_unban_outcomes_witness :
  adminUnbanHandler (unban_request (Some "s3cret"%string) "A") 350 w_no_key =
    (inr tt, set_outbox [Send 500 AdminKeyMissingBody] w_no_key) /\
  adminUnbanHandler (unban_request (Some "guess"%string) "A") 350 w_banned =
    (inr tt, set_outbox (outbox w_banned ++ [Send 401 UnauthorizedBody]) w_banned) /\
  returns (adminUnbanHandler (unban_request (Some "s3cret"%string) "A") 350) w_banned
    (fun _ w' =>
       outbox w' = outbox w_banned ++ [Send 200 (UnbannedBody "A")] /\
       banned w' = delete "A" (banned w_banned)) /\
  returns (adminUnbanHandler (unban_request (Some "s3cret"%string) "B") 350) w_banned
    (fun _ w' =>
       outbox w' = outbox w_banned ++ [Send 404 (NotFoundBody "B")] /\
       banned w' = banned w_banned).
Proof.
  split; [| split; [| split]].
  - apply (proj1 (admin_unban_outcomes _ 350 w_no_key)). reflexivity.
  - apply (proj1 (proj2 (admin_unban_outcomes _ 350 w_banned))).
    + reflexivity.
    + right. vm_compute. discriminate.
  - apply (proj2 (proj2 (admin_unban_outcomes
             (unban_request (Some "s3cret"%string) "A") 350 w_banned))
             (ReqBody None (Some "A"%string)) "A"%string);
      [reflexivity | reflexivity | reflexivity | reflexivity | discriminate].
  - apply (proj2 (proj2 (admin_unban_outcomes
             (unban_request (Some "s3cret"%string) "B") 350 w_banned))
             (ReqBody None (Some "B"%string)) "B"%string);
      [reflexivity | reflexivity | reflexivity | reflexivity | discriminate].
Defined.

(** X23.  [unbanIp] follows what [banned[ip]] finds.  When it finds
    nothing, the call returns [false] and changes nothing at all: no table,
    no file, no call to the file system.  When it finds something, the call
    returns [true], [banned] is the old map without the own entry of that
    address, the new map is handed to [writeFileSync] (and is the content
    of the file when the write goes through), and an [UNBAN] line is
    appended to the log. *)
Theorem unban_outcomes now ip w :
  if listed w ip then
    let b' := delete ip (banned w) in
    returns (unbanIp now ip) w (fun ok w' =>
      ok = true /\
      banned w' = b' /\
      syscalls w' = syscalls w ++
        [SysWriteBanned (TextJson b'); SysAppendLog (LogUnban now ip)] /\
      banned_file (fs w') = write_leaves (TextJson b') w)
  else unbanIp now ip w = (inr false, w).
Proof.
  destruct (listed w ip) eqn:Hl.
  - eapply returns_mono; [eapply unbanIp_present; exact Hl |].
    cbn. intros ok w' (Hok & Hb' & _ & _ & _ & _ & _ & _ & Hsys & Hfile). auto.
  - apply unbanIp_absent. exact Hl.
Qed.

(** ** Starting again *)

(** X14.  Starting the module never alters a ban file or a log that is
    already on disk, whatever the file system answers and whether or not
    the start ends in an exception. *)
Theorem module_init_keeps_files w :
  let w' := (module_init w).2 in
  (forall t, banned_file (fs w) = Some t -> banned_file (fs w') = Some t) /\
  (forall l, request_log (fs w) = Some l -> request_log (fs w') = Some l).
Proof.
  destruct w as [b ts [dd ld bf rl] ok sc co key out pr dmg].
  unfold module_init, ensureFiles, loadBanned, when, fs_existsSync, fs_mkdirSync,
    fs_writeFileSync_log_empty, JSON_stringify, JSON_parse.
  run_prims.
  split; intros x Hx; cbn in Hx;
    destruct dd, ld, bf as [t |], rl; try discriminate Hx; cbn;
    repeat (match goal with
            | |- context [if ok ?c then _ else _] => destruct (ok c) eqn:?
            | |- context [text_truthy ?t] => is_var t; destruct t
            | |- context [damaged (dmg ?c) _] => destruct (dmg c) eqn:?
            | |- context [match dmg ?c with _ => _ end] => destruct (dmg c) eqn:?
            end; cbn);
    exact Hx.
Qed.

(** X15.  When [ensureFiles] returns, both directories and both files
    exist, and running it again does nothing: no call to the file system,
    no change of state. *)
Theorem ensureFiles_is_idempotent w w1 :
  ensureFiles w = (inr tt, w1) ->
  data_dir (fs w1) = true /\ log_dir (fs w1) = true /\
  is_Some (banned_file (fs w1)) /\ is_Some (request_log (fs w1)) /\
  ensureFiles w1 = (inr tt, w1).
Proof.
  destruct w as [b ts [dd ld bf rl] ok sc co key out pr dmg].
  unfold ensureFiles, when, fs_existsSync, fs_mkdirSync,
    fs_writeFileSync_banned, fs_writeFileSync_log_empty, JSON_stringify, sys,
    bind, gets, modify, ret, throw.
  cbn.
  destruct dd, ld, bf, rl; cbn;
    repeat (match goal with
            | |- context [if ok ?c then _ else _] => destruct (ok c) eqn:?
            end; cbn);
    intros Heq; try discriminate; injection Heq as <-; cbn;
    repeat split; eauto.
Qed.

Lemma ensureFiles_is_idempotent_witness :
  let w1 := (ensureFiles (boot (Disk false false None None) all_ok None)).2 in
  data_dir (fs w1) = true /\ log_dir (fs w1) = true /\
  is_Some (banned_file (fs w1)) /\ is_Some (request_log (fs w1)) /\
  ensureFiles w1 = (inr tt, w1).
Proof.
  apply (ensureFiles_is_idempotent (boot (Disk false false None None) all_ok None)).
  vm_compute. reflexivity.
Defined.

(** X25.  The start of the module has no handler around [ensureFiles]: when
    the operating system refuses one of the calls by which it creates what
    is missing, the start ends in that exception, before [loadBanned] is
    reached; nothing is written to the console and the tables are as they
    were. *)
Theorem start_fails_when_creation_refused w c :
  c ∈ ensure_calls (fs w) ->
  io_ok w c = false ->
  throws module_init w (fun e w' =>
    e = EIO /\ console w' = console w /\ banned w' = banned w /\
    SysReadBanned ∉ drop (length (syscalls w)) (syscalls w')).
Proof.
  destruct w as [b ts [dd ld bf rl] ok sc co key out pr dmg].
  unfold ensure_calls. cbn. intros Hin Hno.
  unfold throws, module_init, ensureFiles, loadBanned, when, fs_existsSync, fs_mkdirSync,
    fs_writeFileSync_banned, fs_writeFileSync_log_empty, JSON_stringify, sys,
    bind, gets, modify, ret, throw.
  cbn.
  destruct dd, ld, bf, rl; cbn in Hin |- *;
    repeat (apply elem_of_cons in Hin as [-> | Hin]);
    try (by apply elem_of_nil in Hin);
    repeat (match goal with
            | |- context [if ok ?c then _ else _] =>
                first [ rewrite Hno | destruct (ok c) eqn:? ]
            end; cbn);
    eexists _, _; (split; [reflexivity |]); cbn;
    (split; [reflexivity |]); (split; [reflexivity |]); (split; [reflexivity |]);
    rewrite ?drop_app_length, <- ?app_assoc, ?drop_app_length;
    intros Hr; repeat (apply elem_of_cons in Hr as [Hr | Hr]; [discriminate |]);
    by apply elem_of_nil in Hr.
Qed.

Lemma start_fails_when_creation_refused_witness :
  throws module_init (boot (Disk true true None None) none_ok None) (fun e w' =>
    e = EIO /\ console w' = [] /\ banned w' = ∅ /\
    SysReadBanned ∉ drop 0 (syscalls w')).
Proof.
  apply (start_fails_when_creation_refused
           (boot (Disk true true None None) none_ok None)
           (SysWriteBanned (TextJson ∅))).
  - vm_compute. repeat constructor.
  - reflexivity.
Defined.

(** ** Clients under whose address [banned] finds nothing *)

(** X20.  The threshold is strict.  [banned[ip]] finds nothing under the
    address of a client that has no recorded request.  The client sends
    [max_of opts] requests and then one more, every one inside the trailing
    window of those after it.  Each of the first [max_of opts] is passed to
    [next()]; up to there nothing stands under the address; the one after
    them is answered 429 and leaves a ban record under the address.  The
    test is [recent.length > maxReq]. *)
Theorem threshold_is_strict opts ip rs req clk w :
  listed w ip = false ->
  default [] (ipTimestamps w !! ip) = [] ->
  Forall (fun rc => client_ip rc.1 = ip) rs ->
  client_ip req = ip ->
  within_window (window_of opts) (instants (rs ++ [(req, clk)])) ->
  Z.of_nat (length rs) = max_of opts ->
  returns (serve (rateLimiterMiddleware opts) rs) w (fun _ w1 =>
    outbox w1 = outbox w ++ replicate (length rs) Next /\
    listed w1 ip = false /\
    returns (rateLimiterMiddleware opts req clk) w1 (fun _ w2 =>
      outbox w2 = outbox w1 ++ [Send 429 (ExceededBody (max_of opts) (window_of opts))] /\
      banned w2 !! ip =
        Some (BanRecord (date_ban clk)
                        (exceeded_reason (max_of opts) (window_of opts))
                        "rateLimiter"))).
Proof.
  intros Hb Hfresh Hip Hreq Hwin Hlen.
  unfold instants in Hwin. rewrite map_app in Hwin. cbn [map] in Hwin.
  fold (instants rs) in Hwin. change (date_now (req, clk).2) with (date_now clk) in Hwin.
  eapply returns_mono.
  { apply (serve_allowed opts ip rs w Hb Hip).
    - rewrite Hfresh. cbn. eapply within_window_prefix. exact Hwin.
    - rewrite Hfresh. cbn. lia. }
  cbn. intros [] w1 (Ho1 & Hb1 & Hp1 & Hs1).
  rewrite Hfresh in Hs1. cbn in Hs1.
  assert (Hl1 : listed w1 ip = false)
    by (rewrite (listed_same w w1) by assumption; exact Hb).
  split; [exact Ho1 |]. split; [exact Hl1 |].
  eapply returns_mono; [apply middleware_unbanned; rewrite Hreq; exact Hl1 |].
  cbn. rewrite Hreq. intros [] w2 (_ & _ & _ & _ & _ & _ & Hcase).
  rewrite recorded_all in Hcase by (rewrite Hs1; exact Hwin).
  rewrite Hs1, length_app in Hcase. unfold instants in Hcase.
  rewrite length_map in Hcase. cbn in Hcase.
  destruct (decide _) as [_ | Hle] in Hcase; [| lia].
  destruct Hcase as (Ho2 & Hb2 & _). split; [exact Ho2 |].
  rewrite Hb2. apply lookup_insert_eq.
Qed.

Lemma threshold_is_strict_witness :
  returns (serve (rateLimiterMiddleware opts_3_1000) three_from_A) w0 (fun _ w1 =>
    outbox w1 = [Next; Next; Next] /\
    listed w1 "A" = false /\
    returns (rateLimiterMiddleware opts_3_1000 (from "A") (at_ 300)) w1 (fun _ w2 =>
      outbox w2 = outbox w1 ++ [Send 429 (ExceededBody 3 1000)] /\
      banned w2 !! "A" = Some (BanRecord 300 "exceeded_3_per_1000ms" "rateLimiter"))).
Proof.
  apply (threshold_is_strict opts_3_1000 "A" three_from_A (from "A") (at_ 300) w0).
  - reflexivity.
  - reflexivity.
  - repeat constructor.
  - reflexivity.
  - intros i j ti tj Hi Hj Hle.
    destruct i as [| [| [| [| i]]]]; destruct j as [| [| [| [| j]]]];
      cbn in Hi, Hj; try discriminate; try lia;
      injection Hi as <-; injection Hj as <-; vm_compute; discriminate.
  - reflexivity.
Defined.

(** X21.  Only the window counts.  For a client under whose address
    [banned[ip]] finds nothing, and a window that is not negative, a
    request at [now] stores the instants [t] of the old entry with
    [now - t <= windowMs], followed by [now]; nothing else.  The count
    written to the log is their number plus one.  When every stored instant
    is older than the window and the limit is at least 1, the entry becomes
    [[now]], the count is 1 and the request goes to [next()]. *)
Theorem count_is_window_only opts req clk w :
  0 ≤ window_of opts ->
  listed w (client_ip req) = false ->
  let W := window_of opts in
  let now := date_now clk in
  let ip := client_ip req in
  let stored := default [] (ipTimestamps w !! ip) in
  let kept := recent_of W now stored in
  returns (rateLimiterMiddleware opts req clk) w (fun _ w' =>
    ipTimestamps w' !! ip = Some (kept ++ [now]) /\
    (forall t, t ∈ kept <-> now - t ≤ W /\ t ∈ stored) /\
    SysAppendLog (LogReq (date_log clk) ip (req_method req) (req_path req)
                         (length kept + 1)) ∈ syscalls w' /\
    (Forall (fun t => W < now - t) stored -> 1 ≤ max_of opts ->
       kept = [] /\ outbox w' = outbox w ++ [Next] /\ banned w' = banned w)).
Proof.
  intros HW Hb W now ip stored kept.
  eapply returns_mono; [apply middleware_unbanned; exact Hb |].
  cbn. intros [] w' (Ht & _ & _ & _ & _ & (rest & Hsys) & Hcase).
  fold ip W now in Ht, Hsys, Hcase. unfold recorded in Ht, Hsys, Hcase.
  fold stored in Ht, Hsys, Hcase.
  rewrite recent_of_app, recent_of_now in Ht, Hsys, Hcase by exact HW.
  fold kept in Ht, Hsys, Hcase. rewrite length_app in Hsys, Hcase.
  cbn [length] in Hsys, Hcase.
  split; [rewrite Ht; apply lookup_insert_eq |].
  split; [intros t; apply (list_elem_of_filter (fun t => now - t ≤ W)) |].
  split.
  { rewrite Hsys. apply elem_of_app. right. apply list_elem_of_here. }
  intros Hold Hmax.
  pose proof (recent_of_none W now stored Hold) as Hk. fold kept in Hk.
  split; [exact Hk |].
  rewrite Hk in Hcase. cbn in Hcase.
  destruct (decide _) in Hcase; [lia | exact Hcase].
Qed.

Lemma count_is_window_only_witness :
  returns (rateLimiterMiddleware opts_3_1000 (from "A") (at_ 1201)) w_three (fun _ w' =>
    ipTimestamps w' !! "A" = Some ([] ++ [1201]) /\
    (forall t, t ∈ recent_of 1000 1201 [0; 100; 200] <->
               1201 - t ≤ 1000 /\ t ∈ [0; 100; 200]) /\
    SysAppendLog (LogReq 1201 "A" "GET" "/" 1) ∈ syscalls w' /\
    (Forall (fun t => 1000 < 1201 - t) [0; 100; 200] -> 1 ≤ 3 ->
       recent_of 1000 1201 [0; 100; 200] = [] /\
       outbox w' = outbox w_three ++ [Next] /\ banned w' = banned w_three)).
Proof.
  apply (count_is_window_only opts_3_1000 (from "A") (at_ 1201) w_three).
  - vm_compute. discriminate.
  - vm_compute. reflexivity.
Defined.

Lemma serve_within_limit opts ip rs : forall seen w,
  listed w ip = false ->
  Forall (fun rc => client_ip rc.1 = ip) rs ->
  (forall t, t ∈ instants rs ->
     recent_of (window_of opts) t (default [] (ipTimestamps w !! ip)) =
     recent_of (window_of opts) t seen) ->
  non_decreasing (instants rs) ->
  within_limit (window_of opts) (max_of opts) seen (instants rs) ->
  returns (serve (rateLimiterMiddleware opts) rs) w (fun _ w' =>
    outbox w' = outbox w ++ replicate (length rs) Next /\ banned w' = banned w).
Proof.
  induction rs as [| [req clk] rs IH]; intros seen w Hb Hip Hagree Hmono Hlim.
  - apply returns_ret. cbn. by rewrite app_nil_r.
  - apply Forall_cons in Hip as [Hreq Hip]. cbn in Hreq.
    cbn [instants map] in Hagree, Hmono, Hlim.
    change (date_now (req, clk).2) with (date_now clk) in Hagree, Hmono, Hlim.
    fold (instants rs) in Hagree, Hmono, Hlim.
    cbn [non_decreasing within_limit] in Hmono, Hlim.
    destruct Hmono as [Hlater Hmono]. destruct Hlim as [Hnow Hlim].
    cbn [serve]. apply returns_bind.
    eapply returns_mono; [apply middleware_unbanned; by rewrite Hreq |].
    cbn. rewrite Hreq. intros [] w1 (Ht1 & _ & _ & Hp1 & _ & _ & Hcase).
    unfold recorded in Hcase, Ht1. set (now := date_now clk) in *.
    set (stored := default [] (ipTimestamps w !! ip)) in *.
    assert (Hcount : recent_of (window_of opts) now (stored ++ [now]) =
                     recent_of (window_of opts) now (seen ++ [now])).
    { rewrite !recent_of_app. f_equal. apply Hagree. apply list_elem_of_here. }
    rewrite Hcount in Hcase.
    destruct (decide _) as [Hgt | _] in Hcase; [lia |].
    destruct Hcase as [Ho1 Hb1].
    eapply returns_mono; [apply (IH (seen ++ [now]) w1) |]; try assumption.
    + rewrite (listed_same w w1) by assumption. exact Hb.
    + intros t Ht. rewrite Ht1, lookup_insert_eq. cbn [default from_option id].
      assert (Hle : now ≤ t).
      { rewrite Forall_forall in Hlater. apply Hlater. exact Ht. }
      rewrite recent_of_later by exact Hle.
      rewrite !recent_of_app. f_equal. apply Hagree. apply list_elem_of_further, Ht.
    + cbn. intros [] w2 (Ho2 & Hb2). split; [| congruence].
      rewrite Ho2, Ho1, <- app_assoc. reflexivity.
Qed.

(** X16.  A client that keeps to the limit is never denied.  [banned[ip]]
    finds nothing under its address and it has no stored instant, its
    requests arrive on a clock that does not run backwards, and each of
    them finds at most [max_of opts] of the client's requests, itself
    included, in its trailing window.  Then every request of the run,
    however long, is passed to [next()] and the ban map stays as it was. *)
Theorem within_limit_never_banned opts ip rs w :
  listed w ip = false ->
  default [] (ipTimestamps w !! ip) = [] ->
  Forall (fun rc => client_ip rc.1 = ip) rs ->
  non_decreasing (instants rs) ->
  within_limit (window_of opts) (max_of opts) [] (instants rs) ->
  returns (serve (rateLimiterMiddleware opts) rs) w (fun _ w' =>
    outbox w' = outbox w ++ replicate (length rs) Next /\ banned w' = banned w).
Proof.
  intros Hb Hfresh Hip Hmono Hlim.
  apply (serve_within_limit opts ip rs [] w); try assumption.
  intros t _. rewrite Hfresh. reflexivity.
Qed.

Lemma within_limit_never_banned_witness :
  returns (serve (rateLimiterMiddleware opts_3_1000) six_paced_from_A) w0 (fun _ w' =>
    outbox w' = [Next; Next; Next; Next; Next; Next] /\ banned w' = banned w0).
Proof.
  apply (within_limit_never_banned opts_3_1000 "A" six_paced_from_A w0).
  - reflexivity.
  - reflexivity.
  - repeat constructor.
  - cbn. repeat split; repeat (constructor; [vm_compute; discriminate |]);
      constructor.
  - cbn. repeat split; vm_compute; discriminate.
Defined.

(** ** A ban of ["__proto__"] *)

(** X24.  [banIp] on ["__proto__"], when [banned] has no own entry of that
    name, stores no entry: the assignment makes the record the prototype of
    [banned].  The map of entries is as it was, and so is the text written
    to the ban file, which does not hold the new record.  A request whose
    address is ["__proto__"] is answered 403 with the instant and the
    reason of the record; and the names of the fields of the record read
    as if they were banned: a request whose address is ["bannedAt"] or
    ["by"], under which no entry stands, is answered 403. *)
Theorem proto_ban_is_not_stored now why w :
  banned w !! "__proto__" = None ->
  let r := BanRecord now (default "rate_limit_exceeded"%string why) "rateLimiter" in
  returns (banIp now "__proto__" why) w (fun _ w' =>
    banned w' = banned w /\
    banned_proto w' = Some r /\
    SysWriteBanned (TextJson (banned w)) ∈ syscalls w' /\
    (forall opts req clk,
       client_ip req = "__proto__"%string ->
       returns (rateLimiterMiddleware opts req clk) w' (fun _ w2 =>
         outbox w2 = outbox w' ++ [Send 403 (BlockedBody now (reason r))])) /\
    (forall opts req clk,
       client_ip req = "bannedAt"%string \/ client_ip req = "by"%string ->
       banned w !! client_ip req = None ->
       returns (rateLimiterMiddleware opts req clk) w' (fun _ w2 =>
         outbox w2 = outbox w' ++ [Send 403 BlockedBareBody] /\
         ipTimestamps w2 = ipTimestamps w'))).
Proof.
  intros Hown r.
  eapply returns_mono; [apply banIp_returns |].
  cbn. fold r. rewrite (banned_assign_proto r w Hown). cbn.
  intros [] w' (Hb & Hp & _ & _ & _ & _ & _ & Hsys & _).
  split; [exact Hb |]. split; [exact Hp |]. split.
  { rewrite Hsys. apply elem_of_app. right. apply list_elem_of_here. }
  split.
  - intros opts req clk Hreq.
    assert (Hread : banned_read w' (client_ip req) = ReadRecord r).
    { unfold banned_read. rewrite Hreq, Hb, Hown, Hp. reflexivity. }
    eapply returns_mono; [apply middleware_listed; unfold listed; by rewrite Hread |].
    cbn. rewrite Hread. cbn. intros [] w2 (Ho & _). exact Ho.
  - intros opts req clk Hreq Hnone.
    assert (Hread : blocked_body (banned_read w' (client_ip req)) = BlockedBareBody /\
                    listed w' (client_ip req) = true).
    { unfold listed, banned_read. rewrite Hb, Hnone, Hp.
      destruct Hreq as [-> | ->]; split; reflexivity. }
    destruct Hread as [Hbody Hl].
    eapply returns_mono; [apply middleware_listed; exact Hl |].
    cbn. rewrite Hbody. intros [] w2 (Ho & _ & _ & Ht & _). auto.
Qed.

Lemma proto_ban_is_not_stored_witness :
  returns (banIp 1000 "__proto__" (Some "manual"%string)) w0 (fun _ w' =>
    banned w' = banned w0 /\
    banned_proto w' = Some (BanRecord 1000 "manual" "rateLimiter") /\
    SysWriteBanned (TextJson (banned w0)) ∈ syscalls w' /\
    (forall opts req clk,
       client_ip req = "__proto__"%string ->
       returns (rateLimiterMiddleware opts req clk) w' (fun _ w2 =>
         outbox w2 = outbox w' ++ [Send 403 (BlockedBody 1000 "manual")])) /\
    (forall opts req clk,
       client_ip req = "bannedAt"%string \/ client_ip req = "by"%string ->
       banned w0 !! client_ip req = None ->
       returns (rateLimiterMiddleware opts req clk) w' (fun _ w2 =>
         outbox w2 = outbox w' ++ [Send 403 BlockedBareBody] /\
         ipTimestamps w2 = ipTimestamps w'))).
Proof.
  apply (proto_ban_is_not_stored 1000 (Some "manual"%string) w0). reflexivity.
Defined.

(** X6 needs what it asks of the client.  The entry of ["reason"] dates
    from before ["__proto__"] was banned; no ban record stands under
    ["reason"], but [banned["reason"]] now finds the reason of the record
    that serves as prototype.  The request is answered 403 and leaves the
    tracker alone, so the round of [cleanup] before it shows: the old entry
    is gone. *)
Lemma cleanup_shows_under_inherited_name :
  let wa := (middleware (from "reason") (at_ 20500) w_reason).2 in
  let wb := ((cleanup 20000 ;;; middleware (from "reason") (at_ 20500)) w_reason).2 in
  banned w_reason !! "reason" = None /\
  outbox wa = [Send 403 BlockedBareBody] /\
  ipTimestamps wa !! "reason" = Some [0] /\
  ipTimestamps wb !! "reason" = None.
Proof. repeat split; vm_compute; reflexivity. Qed.

(** ** Wrapping text *)

Lemma append_cons_str x (a b : string) : String x a +:+ b = String x (a +:+ b).
Proof. reflexivity. Qed.

Lemma append_assoc_str (a b c : string) : (a +:+ b) +:+ c = a +:+ (b +:+ c).
Proof.
  induction a as [| x a IH]; [reflexivity |].
  rewrite !append_cons_str. by rewrite IH.
Qed.

Lemma split_spaces_join text :
  join_spaces (split_spaces text).1 (split_spaces text).2 = text.
Proof.
  induction text as [| c rest IH]; [reflexivity |].
  cbn [split_spaces]. destruct (split_spaces rest) as [w ws]. cbn [fst snd] in IH.
  destruct (Ascii.eqb c space) eqn:Hc; cbn [fst snd].
  - apply Ascii.eqb_eq in Hc. subst c. cbn [join_spaces]. by rewrite IH.
  - destruct ws as [| x r]; cbn [join_spaces] in *.
    + by rewrite IH.
    + rewrite append_cons_str. by rewrite IH.
Qed.

Lemma join_spaces_append a b rest :
  join_spaces (a +:+ b) rest = a +:+ join_spaces b rest.
Proof. destruct rest; cbn [join_spaces]; [reflexivity | by rewrite append_assoc_str]. Qed.

Lemma wrap_from_not_nil fits cur ws : wrap_from fits cur ws <> [].
Proof.
  revert cur. induction ws as [| w ws IH]; intros cur; cbn; [discriminate |].
  destruct (fits _); [apply IH | discriminate].
Qed.

Lemma wrap_from_join fits ws : forall cur,
  join_lines (wrap_from fits cur ws) = join_spaces cur ws.
Proof.
  induction ws as [| w ws IH]; intros cur; cbn [wrap_from]; [reflexivity |].
  destruct (fits _).
  - rewrite IH. rewrite !join_spaces_append. reflexivity.
  - cbn [join_lines join_spaces].
    specialize (IH w). destruct (wrap_from fits w ws) as [| l ls] eqn:Hw.
    + by apply wrap_from_not_nil in Hw.
    + cbn [join_spaces]. cbn [join_lines] in IH. by rewrite IH.
Qed.

(** X17.  [wrapText] loses nothing: whatever the width test answers, the
    lines it returns, joined with single spaces, are the text it was
    given. *)
Theorem wrapText_is_lossless fits text :
  join_lines (wrapText fits text) = text.
Proof.
  unfold wrapText. pose proof (split_spaces_join text) as Hs.
  destruct (split_spaces text) as [w0 rest]. cbn in Hs.
  rewrite wrap_from_join. exact Hs.
Qed.

Lemma wrap_from_lines_fit fits (words : list string) ws : forall cur,
  (fits cur = true \/ cur ∈ words) ->
  Forall (fun w => w ∈ words) ws ->
  Forall (fun line => fits line = true \/ line ∈ words) (wrap_from fits cur ws).
Proof.
  induction ws as [| w ws IH]; intros cur Hcur Hws; cbn [wrap_from].
  - constructor; [exact Hcur | constructor].
  - apply Forall_cons in Hws as [Hw Hws].
    destruct (fits (cur +:+ " " +:+ w)) eqn:Hfit.
    + apply IH; [left; exact Hfit | exact Hws].
    + constructor; [exact Hcur |]. apply IH; [right; exact Hw | exact Hws].
Qed.

(** X18.  Every line [wrapText] returns passes the width test, unless it is
    a single word of the text: the only lines wider than allowed are words
    that are too wide on their own. *)
Theorem wrapText_lines_fit fits text :
  let words := (split_spaces text).1 :: (split_spaces text).2 in
  Forall (fun line => fits line = true \/ line ∈ words) (wrapText fits text).
Proof.
  unfold wrapText. destruct (split_spaces text) as [w0 rest]. cbn.
  apply wrap_from_lines_fit.
  - right. apply list_elem_of_here.
  - apply Forall_forall. intros w Hw. apply list_elem_of_further, Hw.
Qed.

Example wrapText_example :
  wrapText fits_12 "ONE DOES NOT SIMPLY INCOMPREHENSIBLY WRAP"
  = ["ONE DOES NOT"; "SIMPLY"; "INCOMPREHENSIBLY"; "WRAP"]%string.
Proof. reflexivity. Qed.
